(** * secbeat: the mock provisioning webhook (webhook_server.py)

    A shallow embedding of [WebhookHandler.do_POST] and of the parts of the
    Python runtime it calls ([bytes.decode], [json.loads], [dict.get],
    truth testing, [int], [json.dumps]), followed by the properties of the
    handler.

    Conventions.
    - A Python [str] is kept as the UTF-8 encoding of its code points in a
      Rocq [string]; a Python [bytes] is a [list byte].
    - A value produced by [json.loads] is a [json]; a Python [dict] is an
      association list in insertion order with unique keys.
    - Everything the handler does to the outside world ([print],
      [time.sleep], the calls on the response) is an [event]; a run of the
      handler is the list of its events, in program order, together with
      its outcome (normal return or the exception that leaves it).
    - Standard output encodes UTF-8 with the strict error handler, as it
      does on a terminal and in every UTF-8 locale, so [print] raises
      [UnicodeEncodeError] on a string that holds a lone surrogate and on
      nothing else.  (Under the POSIX locale the handler is
      [surrogateescape], which writes the 128 surrogates from U+DC80 to
      U+DCFF as bytes and refuses the others; what is proved below of
      strings without a lone surrogate holds there as well.)  The calls on
      the response do not fail.
    - A header value is its Latin-1 text, one character per byte, as
      [http.client] decodes it.
    - Integers of the C library are those of a 64-bit platform, and [int]
      converts at most 4300 digits, the interpreter's default.  What the
      machine runs out of (memory for the bytes it is asked to read, the
      depth of recursion of the JSON scanner) is not modelled: the machine
      has what is asked of it.
    - [log_message] (lines 9-11) is called by the base class only, inside
      what is the event [SendResponse] here; it is modelled on its own, with
      the clock's answer as an argument. *)

From Stdlib Require Import ZArith NArith List Bool Lia.
From Stdlib.Strings Require Import String Ascii Byte.
From Stdlib Require Import DecimalString.
From Stdlib Require DecimalNat DecimalFacts.
Import ListNotations.

#[local] Set Warnings "-register-all".
Local Open Scope string_scope.
Local Open Scope list_scope.

(* ================================================================== *)
(** * Python values and exceptions *)
(* ================================================================== *)

(** A Python [float] obtained from a JSON literal: the exact decimal
    [(-1)^negative * m * 10^e] written in the text (the interpreter rounds
    it to a double; the sign is kept apart because of [-0.0]), or one of the
    three constants [json.loads] also accepts. *)
Inductive pyfloat : Type :=
| FDec (negative : bool) (m : N) (e : Z)
| FNan
| FInf (negative : bool).

Inductive json : Type :=
| JNull
| JBool (b : bool)
| JInt (z : Z)
| JFloat (f : pyfloat)
| JString (s : string)
| JArray (items : list json)
| JObject (members : list (string * json)).

Definition dict : Type := list (string * json).

(** The exceptions that can arise in [do_POST].  Messages and positions are
    not kept, except the receiver of a failed attribute lookup. *)
Inductive exn : Type :=
| UnicodeDecodeError
| JSONDecodeError
| RecursionError
| AttributeError (receiver : json) (attr : string)
| TypeError
| ValueError
| UnicodeEncodeError
| OverflowError.

Inductive result (A : Type) : Type :=
| Ok (a : A)
| Raise (e : exn).
Arguments Ok {A} a.
Arguments Raise {A} e.

Definition rbind {A B} (r : result A) (k : A -> result B) : result B :=
  match r with
  | Ok a => k a
  | Raise e => Raise e
  end.

(* ================================================================== *)
(** * The Python runtime used by the handler *)
(* ================================================================== *)

Module Py.

Local Open Scope string_scope.

Definition dquote : ascii := "034"%char.
Definition backslash : ascii := "092"%char.
Definition newline : ascii := "010"%char.

(** ** dict *)

Fixpoint dict_lookup (d : dict) (k : string) : option json :=
  match d with
  | [] => None
  | (k', v) :: d' => if String.eqb k' k then Some v else dict_lookup d' k
  end.

(** [d[k] = v]: an existing key keeps its place, a new key goes last. *)
Fixpoint dict_set (d : dict) (k : string) (v : json) : dict :=
  match d with
  | [] => [(k, v)]
  | (k', v') :: d' =>
      if String.eqb k' k then (k', v) :: d' else (k', v') :: dict_set d' k v
  end.

(** [d.get(k, default)] on a dict. *)
Definition dict_get (d : dict) (k : string) (default : json) : json :=
  match dict_lookup d k with
  | Some v => v
  | None => default
  end.

(** [obj.get(k, default)] on an arbitrary decoded value: only a dict has the
    attribute [get]. *)
Definition get (obj : json) (k : string) (default : json) : result json :=
  match obj with
  | JObject d => Ok (dict_get d k default)
  | _ => Raise (AttributeError obj "get")
  end.

(** ** Truth value testing and comparison with a string *)

(** A float is false exactly when it is zero.  The decimal [m * 10^e] rounds
    to a non-zero double iff its magnitude is above [2^-1075], half of the
    least subnormal (a tie rounds to even, which is zero). *)
Definition float_nonzero (f : pyfloat) : bool :=
  match f with
  | FDec _ m e =>
      if (0 <=? e)%Z then negb (m =? 0)%N
      else (10 ^ (- e) <? Z.of_N m * 2 ^ 1075)%Z
  | FNan => true
  | FInf _ => true
  end.

(** [bool(v)], as in [if fleet_metrics:]. *)
Definition truthy (v : json) : bool :=
  match v with
  | JNull => false
  | JBool b => b
  | JInt z => negb (z =? 0)%Z
  | JFloat f => float_nonzero f
  | JString s => negb (String.eqb s "")
  | JArray l => match l with [] => false | _ => true end
  | JObject d => match d with [] => false | _ => true end
  end.

(** [v == s] for a string constant [s]: only an equal [str] compares equal. *)
Definition eq_str (v : json) (s : string) : bool :=
  match v with
  | JString s' => String.eqb s' s
  | _ => false
  end.

(** ** bytes.decode('utf-8') *)

Definition cont (b : N) : bool := ((128 <=? b) && (b <=? 191))%N.
Definition between (lo b hi : N) : bool := ((lo <=? b) && (b <=? hi))%N.

(** Well-formed UTF-8 byte sequences (shortest form, no surrogates, at most
    U+10FFFF), the sequences the strict decoder accepts. *)
Fixpoint utf8_ok (bs : list N) : bool :=
  match bs with
  | [] => true
  | b0 :: r =>
      if (b0 <? 128)%N then utf8_ok r
      else if between 194 b0 223 then
        match r with
        | b1 :: r1 => cont b1 && utf8_ok r1
        | _ => false
        end
      else if between 224 b0 239 then
        match r with
        | b1 :: b2 :: r2 =>
            (if (b0 =? 224)%N then between 160 b1 191
             else if (b0 =? 237)%N then between 128 b1 159
             else cont b1)
            && cont b2 && utf8_ok r2
        | _ => false
        end
      else if between 240 b0 244 then
        match r with
        | b1 :: b2 :: b3 :: r3 =>
            (if (b0 =? 240)%N then between 144 b1 191
             else if (b0 =? 244)%N then between 128 b1 143
             else cont b1)
            && cont b2 && cont b3 && utf8_ok r3
        | _ => false
        end
      else false
  end.

Definition bytes_decode (bs : list byte) : result string :=
  if utf8_ok (map Byte.to_N bs) then Ok (string_of_list_byte bs)
  else Raise UnicodeDecodeError.

(** A [str] that the strict UTF-8 encoder accepts: one without a lone
    surrogate.  (Text decoded from UTF-8 has none; a [\u] escape of
    [json.loads] can leave one.) *)
Definition encodable (s : string) : bool :=
  utf8_ok (map N_of_ascii (list_ascii_of_string s)).

(** ** json.loads *)

(** The scanner follows the C accelerator of the [json] module
    ([scan_once], [_parse_object], [_parse_array], [_match_number],
    [scanstring] in strict mode).  As the structural characters of JSON are
    ASCII, scanning the UTF-8 text byte by byte is scanning the [str]
    character by character.  The interpreter's limit on the digits of an
    [int] is modelled ([match_number]); its limit on the depth of
    recursion is not. *)

Definition is_ws (c : ascii) : bool :=
  Ascii.eqb c " " || Ascii.eqb c "009" || Ascii.eqb c newline
  || Ascii.eqb c "013".

Fixpoint skip_ws (s : string) : string :=
  match s with
  | String c s' => if is_ws c then skip_ws s' else s
  | EmptyString => s
  end.

Definition is_digit (c : ascii) : bool :=
  between 48 (N_of_ascii c) 57.

Definition digit_val (c : ascii) : Z := Z.of_N (N_of_ascii c) - 48.

(** The longest prefix of decimal digits, and what follows it. *)
Fixpoint span_digits (s : string) : string * string :=
  match s with
  | String c s' =>
      if is_digit c then
        let (ds, r) := span_digits s' in (String c ds, r)
      else (EmptyString, s)
  | EmptyString => (EmptyString, s)
  end.

Fixpoint digits_value (acc : Z) (ds : string) : Z :=
  match ds with
  | String c ds' => digits_value (10 * acc + digit_val c) ds'
  | EmptyString => acc
  end.

Fixpoint strip_prefix (p s : string) : option string :=
  match p with
  | EmptyString => Some s
  | String a p' =>
      match s with
      | String b s' => if Ascii.eqb a b then strip_prefix p' s' else None
      | EmptyString => None
      end
  end.

Definition hex_val (c : ascii) : option N :=
  let n := N_of_ascii c in
  if between 48 n 57 then Some (n - 48)%N
  else if between 97 n 102 then Some (n - 87)%N
  else if between 65 n 70 then Some (n - 55)%N
  else None.

Definition hex4 (a b c d : ascii) : option N :=
  match hex_val a, hex_val b, hex_val c, hex_val d with
  | Some x, Some y, Some z, Some w =>
      Some (((x * 16 + y) * 16 + z) * 16 + w)%N
  | _, _, _, _ => None
  end.

Definition chr (n : N) : string := String (ascii_of_N n) EmptyString.

(** The UTF-8 bytes of one code point (a lone surrogate left by an escape
    is written in the same three-byte form). *)
Definition utf8_encode (cp : N) : string :=
  if (cp <? 128)%N then chr cp
  else if (cp <? 2048)%N then
    chr (192 + cp / 64) ++ chr (128 + cp mod 64)
  else if (cp <? 65536)%N then
    chr (224 + cp / 4096) ++ chr (128 + (cp / 64) mod 64)
    ++ chr (128 + cp mod 64)
  else
    chr (240 + cp / 262144) ++ chr (128 + (cp / 4096) mod 64)
    ++ chr (128 + (cp / 64) mod 64) ++ chr (128 + cp mod 64).

Definition is_high (u : N) : bool := between 55296 u 56319.
Definition is_low (u : N) : bool := between 56320 u 57343.
Definition join_surrogates (h l : N) : N :=
  (65536 + (h - 55296) * 1024 + (l - 56320))%N.

(** The character a one-letter escape stands for. *)
Definition unescape (c : ascii) : option ascii :=
  if Ascii.eqb c dquote then Some dquote
  else if Ascii.eqb c backslash then Some backslash
  else if Ascii.eqb c "/" then Some "/"%char
  else if Ascii.eqb c "b" then Some "008"%char
  else if Ascii.eqb c "f" then Some "012"%char
  else if Ascii.eqb c "n" then Some newline
  else if Ascii.eqb c "r" then Some "013"%char
  else if Ascii.eqb c "t" then Some "009"%char
  else None.

Definition flush (pend : option N) : string :=
  match pend with
  | Some h => utf8_encode h
  | None => EmptyString
  end.

Definition emit (pre : string) (r : result (string * string))
  : result (string * string) :=
  match r with
  | Ok (body, rest) => Ok (pre ++ body, rest)
  | Raise e => Raise e
  end.

(** [scanstring], entered after the opening quote: the string's content and
    the text after its closing quote.  [pend] is a high surrogate read from
    a [\u] escape and not yet written, waiting for a low one to pair with. *)
Fixpoint scanstring (pend : option N) (s : string)
  : result (string * string) :=
  match s with
  | EmptyString => Raise JSONDecodeError
  | String c s' =>
      if Ascii.eqb c dquote then Ok (flush pend, s')
      else if Ascii.eqb c backslash then
        match s' with
        | EmptyString => Raise JSONDecodeError
        | String e s2 =>
            if Ascii.eqb e "u" then
              match s2 with
              | String h1 (String h2 (String h3 (String h4 rest))) =>
                  match hex4 h1 h2 h3 h4 with
                  | None => Raise JSONDecodeError
                  | Some u =>
                      match pend with
                      | Some h =>
                          if is_low u then
                            emit (utf8_encode (join_surrogates h u))
                                 (scanstring None rest)
                          else if is_high u then
                            emit (utf8_encode h) (scanstring (Some u) rest)
                          else
                            emit (utf8_encode h ++ utf8_encode u)
                                 (scanstring None rest)
                      | None =>
                          if is_high u then scanstring (Some u) rest
                          else emit (utf8_encode u) (scanstring None rest)
                      end
                  end
              | _ => Raise JSONDecodeError
              end
            else
              match unescape e with
              | Some ch =>
                  emit (flush pend ++ String ch EmptyString)
                       (scanstring None s2)
              | None => Raise JSONDecodeError
              end
        end
      else if (N_of_ascii c <? 32)%N then Raise JSONDecodeError
      else emit (flush pend ++ String c EmptyString) (scanstring None s')
  end.

(** The number of digits of a numeral.  The interpreter refuses to make
    an [int] of more than [max_str_digits] of them (leading zeros counted,
    signs, underscores and white space not) and raises [ValueError]. *)
Fixpoint count_digits (s : string) : N :=
  match s with
  | EmptyString => 0
  | String c s' =>
      if is_digit c then N.succ (count_digits s') else count_digits s'
  end.

Definition max_str_digits : N := 4300.

(** [_match_number]: integer part, then a fraction if a digit follows the
    point, then an exponent if it has a digit (otherwise it is left
    unread).  Without fraction and exponent the number is an [int], made
    from its digits under the limit above. *)
Definition match_number (s : string) : result (json * string) :=
  let (neg, s1) :=
    match s with
    | String c r => if Ascii.eqb c "-" then (true, r) else (false, s)
    | EmptyString => (false, s)
    end in
  let sign (z : Z) : Z := if neg then (- z)%Z else z in
  match s1 with
  | EmptyString => Raise JSONDecodeError
  | String c s2 =>
      if is_digit c then
        let (ipart, s3) :=
          if Ascii.eqb c "0" then (String c EmptyString, s2)
          else let (ds, r) := span_digits s2 in (String c ds, r) in
        let (fpart, s4) :=
          match s3 with
          | String p (String d r) =>
              if Ascii.eqb p "." && is_digit d then span_digits (String d r)
              else (EmptyString, s3)
          | _ => (EmptyString, s3)
          end in
        let '(epart, s5) :=
          match s4 with
          | String e r =>
              if Ascii.eqb e "e" || Ascii.eqb e "E" then
                let (eneg, r1) :=
                  match r with
                  | String g r' =>
                      if Ascii.eqb g "-" then (true, r')
                      else if Ascii.eqb g "+" then (false, r')
                      else (false, r)
                  | EmptyString => (false, r)
                  end in
                let (eds, r2) := span_digits r1 in
                match eds with
                | EmptyString => (None, s4)
                | _ =>
                    let x := digits_value 0 eds in
                    (Some (if eneg then (- x)%Z else x), r2)
                end
              else (None, s4)
          | EmptyString => (None, s4)
          end in
        match fpart, epart with
        | EmptyString, None =>
            if (max_str_digits <? count_digits ipart)%N then Raise ValueError
            else Ok (JInt (sign (digits_value 0 ipart)), s5)
        | _, _ =>
            let m := Z.to_N (digits_value 0 (ipart ++ fpart)) in
            let x := match epart with Some x => x | None => 0%Z end in
            Ok (JFloat (FDec neg m (x - Z.of_nat (String.length fpart))), s5)
        end
      else Raise JSONDecodeError
  end.

(** The values [scan_once] reads without recursion: the literals and
    numbers. *)
Definition scan_atom (s : string) : result (json * string) :=
  match strip_prefix "null" s with
  | Some r => Ok (JNull, r)
  | None =>
  match strip_prefix "true" s with
  | Some r => Ok (JBool true, r)
  | None =>
  match strip_prefix "false" s with
  | Some r => Ok (JBool false, r)
  | None =>
  match strip_prefix "NaN" s with
  | Some r => Ok (JFloat FNan, r)
  | None =>
  match strip_prefix "Infinity" s with
  | Some r => Ok (JFloat (FInf false), r)
  | None =>
  match strip_prefix "-Infinity" s with
  | Some r => Ok (JFloat (FInf true), r)
  | None => match_number s
  end end end end end end.

(** A scan that ran out of fuel is [None]; [json_loads] gives enough
    ([scan_fuel_enough] below). *)
Definition scanned : Type := option (result (json * string)).

Definition malformed : scanned := Some (Raise JSONDecodeError).

(** [scan_once] reads one value.  [parse_members] is the loop of
    [_parse_object], entered where a property name is expected, with the
    dict built so far; [parse_elems] is the loop of [_parse_array], entered
    where an element is expected, with the elements read so far in reverse
    order. *)
Fixpoint scan_once (fuel : nat) (s : string) : scanned :=
  match fuel with
  | O => None
  | S fuel' =>
      match s with
      | EmptyString => malformed
      | String c s' =>
          if Ascii.eqb c dquote then
            match scanstring None s' with
            | Ok (str, r) => Some (Ok (JString str, r))
            | Raise e => Some (Raise e)
            end
          else if Ascii.eqb c "{" then
            match skip_ws s' with
            | EmptyString => malformed
            | String c1 r1 as s1 =>
                if Ascii.eqb c1 "}" then Some (Ok (JObject [], r1))
                else parse_members fuel' [] s1
            end
          else if Ascii.eqb c "[" then
            match skip_ws s' with
            | EmptyString => malformed
            | String c1 r1 as s1 =>
                if Ascii.eqb c1 "]" then Some (Ok (JArray [], r1))
                else parse_elems fuel' [] s1
            end
          else Some (scan_atom s)
      end
  end

with parse_members (fuel : nat) (acc : dict) (s : string) : scanned :=
  match fuel with
  | O => None
  | S fuel' =>
      match s with
      | EmptyString => malformed
      | String c s' =>
          if Ascii.eqb c dquote then
            match scanstring None s' with
            | Raise e => Some (Raise e)
            | Ok (key, r1) =>
                match skip_ws r1 with
                | EmptyString => malformed
                | String c2 r2 =>
                    if Ascii.eqb c2 ":" then
                      match scan_once fuel' (skip_ws r2) with
                      | None => None
                      | Some (Raise e) => Some (Raise e)
                      | Some (Ok (v, r3)) =>
                          let acc' := dict_set acc key v in
                          match skip_ws r3 with
                          | EmptyString => malformed
                          | String c4 r4 =>
                              if Ascii.eqb c4 "}" then
                                Some (Ok (JObject acc', r4))
                              else if Ascii.eqb c4 "," then
                                parse_members fuel' acc' (skip_ws r4)
                              else malformed
                          end
                      end
                    else malformed
                end
            end
          else malformed
      end
  end

with parse_elems (fuel : nat) (acc : list json) (s : string) : scanned :=
  match fuel with
  | O => None
  | S fuel' =>
      match scan_once fuel' s with
      | None => None
      | Some (Raise e) => Some (Raise e)
      | Some (Ok (v, r1)) =>
          match skip_ws r1 with
          | EmptyString => malformed
          | String c2 r2 =>
              if Ascii.eqb c2 "]" then Some (Ok (JArray (rev (v :: acc)), r2))
              else if Ascii.eqb c2 "," then
                parse_elems fuel' (v :: acc) (skip_ws r2)
              else malformed
          end
      end
  end.

Definition scan_fuel (s : string) : nat := 2 * String.length s + 1.

(** [json.loads(s)]: one value, surrounded by optional white space and
    followed by nothing else. *)
Definition json_loads (s : string) : result json :=
  let s0 := skip_ws s in
  match scan_once (scan_fuel s0) s0 with
  | None => Raise RecursionError
  | Some (Raise e) => Raise e
  | Some (Ok (v, rest)) =>
      match skip_ws rest with
      | EmptyString => Ok v
      | String _ _ => Raise JSONDecodeError
      end
  end.

(** ** int(...) on a header value *)

(** White space that [int] strips around the digits of Latin-1 text: the
    six of ASCII, and the two characters above 127 that are Unicode white
    space, U+0085 and U+00A0. *)
Definition is_space (c : ascii) : bool :=
  let n := N_of_ascii c in
  between 9 n 13 || (n =? 32)%N || (n =? 133)%N || (n =? 160)%N.

Fixpoint lstrip (s : string) : string :=
  match s with
  | String c s' => if is_space c then lstrip s' else s
  | EmptyString => s
  end.

(** Digits with single underscores between them, then optional white space
    to the end; [seen] tells whether the previous character was a digit. *)
Fixpoint int_digits (seen : bool) (acc : Z) (s : string) : option Z :=
  match s with
  | EmptyString => if seen then Some acc else None
  | String c s' =>
      if is_digit c then int_digits true (10 * acc + digit_val c) s'
      else if Ascii.eqb c "_" then
        match s' with
        | String d _ =>
            if seen && is_digit d then int_digits false acc s' else None
        | EmptyString => None
        end
      else if seen then
        match lstrip s with
        | EmptyString => Some acc
        | String _ _ => None
        end
      else None
  end.

(** [int(x)] where [x] is what [headers[...]] returned: [None] for a header
    that is not there, else its text. *)
Definition int (x : option string) : result Z :=
  match x with
  | None => Raise TypeError
  | Some s =>
      let s1 := lstrip s in
      let (neg, s2) :=
        match s1 with
        | String c r =>
            if Ascii.eqb c "-" then (true, r)
            else if Ascii.eqb c "+" then (false, r)
            else (false, s1)
        | EmptyString => (false, s1)
        end in
      match int_digits false 0 s2 with
      | Some z =>
          if (max_str_digits <? count_digits s2)%N then Raise ValueError
          else Ok (if neg then (- z)%Z else z)
      | None => Raise ValueError
      end
  end.

(** ** json.dumps on a dict of strings *)

Definition hex_digit (n : N) : ascii :=
  if (n <? 10)%N then ascii_of_N (48 + n) else ascii_of_N (87 + n).

(** [\u00XX] for a control character. *)
Definition u_escape (n : N) : string :=
  String backslash
    (String "u" (String "0" (String "0"
      (String (hex_digit (n / 16)) (String (hex_digit (n mod 16)) ""))))).

Definition escape_char (c : ascii) : string :=
  if Ascii.eqb c dquote then String backslash (String dquote "")
  else if Ascii.eqb c backslash then String backslash (String backslash "")
  else if Ascii.eqb c newline then String backslash "n"
  else if Ascii.eqb c "013" then String backslash "r"
  else if Ascii.eqb c "009" then String backslash "t"
  else if Ascii.eqb c "012" then String backslash "f"
  else if Ascii.eqb c "008" then String backslash "b"
  else if (N_of_ascii c <? 32)%N then u_escape (N_of_ascii c)
  else String c "".

(** A string literal of the output, for ASCII text (all the handler
    passes). *)
Fixpoint escape (s : string) : string :=
  match s with
  | EmptyString => EmptyString
  | String c s' => escape_char c ++ escape s'
  end.

Definition quoted (s : string) : string :=
  String dquote (escape s ++ String dquote "").

Fixpoint dumps_items (d : list (string * string)) : string :=
  match d with
  | [] => ""
  | [(k, v)] => quoted k ++ ": " ++ quoted v
  | (k, v) :: d' => quoted k ++ ": " ++ quoted v ++ ", " ++ dumps_items d'
  end.

(** [json.dumps(d)] for a dict [d] from [str] to [str], with the default
    separators. *)
Definition json_dumps (d : list (string * string)) : string :=
  "{" ++ dumps_items d ++ "}".

(** [str.encode('utf-8')] of a string kept in UTF-8. *)
Definition str_encode (s : string) : list byte := list_byte_of_string s.

End Py.

(* ================================================================== *)
(** * Effects: the trace of a run *)
(* ================================================================== *)

(** A printed line is kept as the f-string that produced it: its literal
    parts and the values substituted into it ([str] of a value is the
    interpreter's business). *)
Inductive piece : Type :=
| Lit (s : string)
| Val (v : json)
| Exc (e : exn).

Definition line : Type := list piece.

(** What the handler does, one event per call.  [SendResponse] stands for
    the whole of the base class's [send_response] (status line, its own
    request log and headers). *)
Inductive event : Type :=
| Print (l : line)
| Sleep (seconds : Z)
| SendResponse (code : Z)
| SendHeader (keyword value : string)
| EndHeaders
| Write (data : list byte).

Definition trace : Type := list event.

(** A computation: the events it performed, and how it ended.  An exception
    does not undo the events before it. *)
Definition M (A : Type) : Type := trace * result A.

Definition ret {A} (a : A) : M A := ([], Ok a).

Definition bind {A B} (m : M A) (k : A -> M B) : M B :=
  match m with
  | (t, Ok a) => let (t', r) := k a in (t ++ t', r)
  | (t, Raise e) => (t, Raise e)
  end.

Definition lift {A} (r : result A) : M A := ([], r).

Definition perform (ev : event) : M unit := ([ev], Ok tt).

(** [try: body  except Exception as e: handler e]. *)
Definition try_except {A} (body : M A) (handler : exn -> M A) : M A :=
  match body with
  | (t, Ok a) => (t, Ok a)
  | (t, Raise e) => let (t', r) := handler e in (t ++ t', r)
  end.

Declare Scope py_scope.
Delimit Scope py_scope with py.
Notation "x <- m ;; k" := (bind m (fun x => k))
  (at level 61, m at next level, right associativity) : py_scope.
Notation "m ;; k" := (bind m (fun _ => k))
  (at level 61, right associativity) : py_scope.
Local Open Scope py_scope.

(** A value that [print] can write: [str] of anything but a [str] is
    ASCII or escapes what it quotes, so only a [str] itself can hold a lone
    surrogate. *)
Definition loggable (v : json) : bool :=
  match v with
  | JString s => Py.encodable s
  | _ => true
  end.

Definition printable (p : piece) : bool :=
  match p with
  | Val v => loggable v
  | Lit _ | Exc _ => true
  end.

(** [print(f"...")]: the line is written whole, or not at all when its
    text cannot be encoded. *)
Definition print (l : line) : M unit :=
  if forallb printable l then perform (Print l)
  else lift (Raise UnicodeEncodeError).
Definition sleep (seconds : Z) : M unit := perform (Sleep seconds).
Definition send_response (code : Z) : M unit := perform (SendResponse code).
Definition send_header (k v : string) : M unit := perform (SendHeader k v).
Definition end_headers : M unit := perform EndHeaders.
Definition wfile_write (data : list byte) : M unit := perform (Write data).

(* ================================================================== *)
(** * The request *)
(* ================================================================== *)

(** What the transport hands to the handler: the header fields, and the
    bytes that can be read from the connection after them. *)
Record request : Type := {
  headers : list (string * string);
  rfile : list byte
}.

Definition lower_char (c : ascii) : ascii :=
  let n := N_of_ascii c in
  if Py.between 65 n 90 then ascii_of_N (n + 32) else c.

Fixpoint lower (s : string) : string :=
  match s with
  | EmptyString => EmptyString
  | String c s' => String (lower_char c) (lower s')
  end.

(** [headers[name]]: the first field of that name, compared without case;
    [None] when there is none. *)
Fixpoint headers_get (h : list (string * string)) (name : string)
  : option string :=
  match h with
  | [] => None
  | (k, v) :: h' =>
      if String.eqb (lower k) (lower name) then Some v else headers_get h' name
  end.

(** The largest C [ssize_t], and the largest [bytes] object: 33 bytes of
    it are its header. *)
Definition ssize_max : Z := 2 ^ 63 - 1.
Definition bytes_max : Z := ssize_max - 33.

(** The first [n] bytes of the input, all of it when it has fewer. *)
Fixpoint take (n : Z) (input : list byte) : list byte :=
  match input with
  | [] => []
  | x :: rest => if (0 <? n)%Z then x :: take (n - 1) rest else []
  end.

(** [rfile.read(n)] on the buffered reader.  A length that is no
    [ssize_t] or is above [bytes_max] is an [OverflowError], one below
    [-1] a [ValueError]; [-1] reads everything, and any other length reads
    that many bytes (fewer at end of input). *)
Definition rfile_read (input : list byte) (n : Z) : result (list byte) :=
  if (n <? - ssize_max - 1)%Z || (ssize_max <? n)%Z then Raise OverflowError
  else if (n <? -1)%Z then Raise ValueError
  else if (n =? -1)%Z then Ok input
  else if (bytes_max <? n)%Z then Raise OverflowError
  else Ok (take n input).

(* ================================================================== *)
(** * WebhookHandler.do_POST *)
(* ================================================================== *)

Definition nl : string := String Py.newline EmptyString.

Definition PREDICTED_HIGH_FLEET_CPU_LOAD : string :=
  "PREDICTED_HIGH_FLEET_CPU_LOAD".
Definition UNEXPECTED_NODE_FAILURE : string := "UNEXPECTED_NODE_FAILURE".

Definition unknown : json := JString "unknown".
Definition not_available : json := JString "N/A".
Definition empty_dict : json := JObject [].

(** Line 18: [json.loads(post_data.decode('utf-8'))]. *)
Definition loads (post_data : list byte) : result json :=
  rbind (Py.bytes_decode post_data) Py.json_loads.

(** Lines 18-20: the payload, its [reason] and its [timestamp]. *)
Definition decode (post_data : list byte) : result (json * json * json) :=
  rbind (loads post_data) (fun payload =>
  rbind (Py.get payload "reason" unknown) (fun reason =>
  rbind (Py.get payload "timestamp" unknown) (fun timestamp =>
  Ok (payload, reason, timestamp)))).

(** Lines 27-31. *)
Definition prediction_block (payload : json) : M unit :=
  prediction_info <- lift (Py.get payload "prediction_info" empty_dict) ;;
  print [Lit "   🧠 ML PREDICTION:"] ;;
  cpu <- lift (Py.get prediction_info "predicted_cpu_usage" not_available) ;;
  print [Lit "      Predicted CPU: "; Val cpu] ;;
  horizon <-
    lift (Py.get prediction_info "prediction_horizon_minutes" not_available) ;;
  print [Lit "      Horizon: "; Val horizon; Lit " minutes"] ;;
  confidence <- lift (Py.get prediction_info "confidence" not_available) ;;
  print [Lit "      Confidence: "; Val confidence].

(** Lines 34-39. *)
Definition node_failure_block (payload : json) : M unit :=
  failed_node_id <- lift (Py.get payload "failed_node_id" unknown) ;;
  failed_node_ip <- lift (Py.get payload "failed_node_ip" unknown) ;;
  print [Lit "   💀 SELF-HEALING TRIGGERED:"] ;;
  print [Lit "      Failed Node ID: "; Val failed_node_id] ;;
  print [Lit "      Failed Node IP: "; Val failed_node_ip] ;;
  print [Lit "   🔧 Provisioning replacement node..."].

(** Lines 26-39: the branch on [reason]. *)
Definition variant_block (payload reason : json) : M unit :=
  if Py.eq_str reason PREDICTED_HIGH_FLEET_CPU_LOAD then
    prediction_block payload
  else if Py.eq_str reason UNEXPECTED_NODE_FAILURE then
    node_failure_block payload
  else ret tt.

(** Lines 41-46. *)
Definition fleet_block (payload : json) : M unit :=
  fleet_metrics <- lift (Py.get payload "fleet_metrics" empty_dict) ;;
  if Py.truthy fleet_metrics then
    print [Lit "   📊 Fleet Status:"] ;;
    active <- lift (Py.get fleet_metrics "active_nodes" not_available) ;;
    print [Lit "      Active Nodes: "; Val active] ;;
    cpu <- lift (Py.get fleet_metrics "avg_cpu_usage" not_available) ;;
    print [Lit "      Avg CPU: "; Val cpu] ;;
    conns <- lift (Py.get fleet_metrics "total_connections" not_available) ;;
    print [Lit "      Total Connections: "; Val conns]
  else ret tt.

(** Lines 22-48: the audit record of one event. *)
Definition dispatch (payload reason timestamp : json) : M unit :=
  print [Lit (nl ++ "🚨 PROVISIONING WEBHOOK RECEIVED:")%string] ;;
  print [Lit "   Reason: "; Val reason] ;;
  print [Lit "   Timestamp: "; Val timestamp] ;;
  variant_block payload reason ;;
  fleet_block payload ;;
  print [Lit ("   ✅ Webhook processed successfully" ++ nl)%string].

(** Line 51. *)
Definition simulate : M unit := sleep 1.

Definition response : list (string * string) :=
  [("status", "success"); ("message", "Provisioning initiated")].

(** Lines 53-57. *)
Definition respond : M unit :=
  send_response 200 ;;
  send_header "Content-type" "application/json" ;;
  end_headers ;;
  wfile_write (Py.str_encode (Py.json_dumps response)).

(** Lines 18-57, the body of the [try]. *)
Definition try_body (post_data : list byte) : M unit :=
  ev <- lift (decode post_data) ;;
  let '(payload, reason, timestamp) := ev in
  dispatch payload reason timestamp ;;
  simulate ;;
  respond.

(** Lines 59-62, the [except] clause. *)
Definition on_error (e : exn) : M unit :=
  print [Lit "❌ Error processing webhook: "; Exc e] ;;
  send_response 400 ;;
  end_headers.

(** Lines 17-62: what happens to a body once it has been read. *)
Definition handle (post_data : list byte) : M unit :=
  try_except (try_body post_data) on_error.

(** Lines 14-15: the declared length, and that many bytes of the input. *)
Definition read_body (req : request) : result (list byte) :=
  rbind (Py.int (headers_get (headers req) "Content-Length"))
        (fun content_length => rfile_read (rfile req) content_length).

(** Lines 13-62.  Lines 14-15 stand before the [try]. *)
Definition do_POST (req : request) : M unit :=
  post_data <- lift (read_body req) ;;
  handle post_data.

(* ================================================================== *)
(** * Observations on a run *)
(* ================================================================== *)

(** The audit record: the printed lines, in order. *)
Definition audit (t : trace) : list line :=
  flat_map (fun ev => match ev with Print l => [l] | _ => [] end) t.

(** What goes to the client: the calls on the response, in order. *)
Definition wire (t : trace) : trace :=
  filter (fun ev => match ev with
                    | Print _ | Sleep _ => false
                    | _ => true
                    end) t.

(** The simulated delays. *)
Definition delays (t : trace) : list Z :=
  flat_map (fun ev => match ev with Sleep n => [n] | _ => [] end) t.

(** JSON text is written with apostrophes for its double quotes. *)
Fixpoint quotes (s : string) : string :=
  match s with
  | EmptyString => EmptyString
  | String c s' =>
      String (if Ascii.eqb c "'" then Py.dquote else c) (quotes s')
  end.

Definition success_body : list byte :=
  Py.str_encode
    (quotes "{'status': 'success', 'message': 'Provisioning initiated'}").

(** Status 200, the content type, and the fixed body. *)
Definition ok_response : trace :=
  [SendResponse 200; SendHeader "Content-type" "application/json";
   EndHeaders; Write success_body].

(** Status 400 and nothing after the headers. *)
Definition bad_request : trace := [SendResponse 400; EndHeaders].

Definition mapping (v : json) : bool :=
  match v with
  | JObject _ => true
  | _ => false
  end.

(** The lines of the audit record, as the properties below name them. *)
Definition banner : line :=
  [Lit (nl ++ "🚨 PROVISIONING WEBHOOK RECEIVED:")%string].
Definition reason_line (reason : json) : line :=
  [Lit "   Reason: "; Val reason].
Definition timestamp_line (timestamp : json) : line :=
  [Lit "   Timestamp: "; Val timestamp].
Definition success_line : line :=
  [Lit ("   ✅ Webhook processed successfully" ++ nl)%string].
Definition error_line (e : exn) : line :=
  [Lit "❌ Error processing webhook: "; Exc e].

Definition prediction_header : line := [Lit "   🧠 ML PREDICTION:"].
Definition node_failure_header : line := [Lit "   💀 SELF-HEALING TRIGGERED:"].
Definition fleet_header : line := [Lit "   📊 Fleet Status:"].

(** The value shown for field [k] of a sub-record: the field's value when
    it is there, the marker when it is not. *)
Definition shown (sub : dict) (k : string) : json :=
  match Py.dict_lookup sub k with
  | Some v => v
  | None => not_available
  end.

Definition prediction_lines (info : dict) : list line :=
  [prediction_header;
   [Lit "      Predicted CPU: "; Val (shown info "predicted_cpu_usage")];
   [Lit "      Horizon: "; Val (shown info "prediction_horizon_minutes");
    Lit " minutes"];
   [Lit "      Confidence: "; Val (shown info "confidence")]].

Definition node_failure_lines (id ip : json) : list line :=
  [node_failure_header;
   [Lit "      Failed Node ID: "; Val id];
   [Lit "      Failed Node IP: "; Val ip];
   [Lit "   🔧 Provisioning replacement node..."]].

Definition fleet_lines (metrics : dict) : list line :=
  [fleet_header;
   [Lit "      Active Nodes: "; Val (shown metrics "active_nodes")];
   [Lit "      Avg CPU: "; Val (shown metrics "avg_cpu_usage")];
   [Lit "      Total Connections: "; Val (shown metrics "total_connections")]].

(** A request whose declared length is the length of its body. *)
Definition post (body : string) : request :=
  {| headers :=
       [("Host", "localhost:8000");
        ("Content-Length",
         NilEmpty.string_of_uint (Nat.to_uint (String.length body)))];
     rfile := list_byte_of_string body |}.

(* ================================================================== *)
(** * The runs of the handler, block by block *)
(* ================================================================== *)

(** How a block of the audit record ends: normally, or with a fault. *)
Definition ending : Type := option exn.

Definition finish (e : ending) : result unit :=
  match e with
  | None => Ok tt
  | Some x => Raise x
  end.

Definition no_get (v : json) : ending := Some (AttributeError v "get").

(** Every value of these lines can be written. *)
Definition lines_loggable (ls : list line) : bool :=
  forallb (forallb printable) ls.

(** Printing lines one after the other: those written, and the fault of
    the first that cannot be. *)
Fixpoint printed (ls : list line) : list line * ending :=
  match ls with
  | [] => ([], None)
  | l :: ls' =>
      if forallb printable l then
        let (written, e) := printed ls' in (l :: written, e)
      else ([], Some UnicodeEncodeError)
  end.

(** The runs of lines 26-39 on a payload that is a dict [d]. *)
Inductive variant_run (d : dict) (reason : json) : list line -> ending -> Prop :=
| run_prediction info vl e :
    Py.eq_str reason PREDICTED_HIGH_FLEET_CPU_LOAD = true ->
    Py.dict_get d "prediction_info" empty_dict = JObject info ->
    printed (prediction_lines info) = (vl, e) ->
    variant_run d reason vl e
| run_prediction_fault v :
    Py.eq_str reason PREDICTED_HIGH_FLEET_CPU_LOAD = true ->
    Py.dict_get d "prediction_info" empty_dict = v ->
    mapping v = false ->
    variant_run d reason [prediction_header] (no_get v)
| run_node_failure vl e :
    Py.eq_str reason PREDICTED_HIGH_FLEET_CPU_LOAD = false ->
    Py.eq_str reason UNEXPECTED_NODE_FAILURE = true ->
    printed (node_failure_lines (Py.dict_get d "failed_node_id" unknown)
                                (Py.dict_get d "failed_node_ip" unknown))
    = (vl, e) ->
    variant_run d reason vl e
| run_unclassified :
    Py.eq_str reason PREDICTED_HIGH_FLEET_CPU_LOAD = false ->
    Py.eq_str reason UNEXPECTED_NODE_FAILURE = false ->
    variant_run d reason [] None.

(** The runs of lines 41-46. *)
Inductive fleet_run (d : dict) : list line -> ending -> Prop :=
| run_fleet_skipped :
    Py.truthy (Py.dict_get d "fleet_metrics" empty_dict) = false ->
    fleet_run d [] None
| run_fleet_logged metrics fl e :
    Py.dict_get d "fleet_metrics" empty_dict = JObject metrics ->
    metrics <> [] ->
    printed (fleet_lines metrics) = (fl, e) ->
    fleet_run d fl e
| run_fleet_fault v :
    Py.dict_get d "fleet_metrics" empty_dict = v ->
    Py.truthy v = true ->
    mapping v = false ->
    fleet_run d [fleet_header] (no_get v).


Definition head (reason timestamp : json) : list line :=
  [banner; reason_line reason; timestamp_line timestamp].

(** The reason and the timestamp can be written. *)
Definition head_loggable (d : dict) : bool :=
  lines_loggable (head (Py.dict_get d "reason" unknown)
                       (Py.dict_get d "timestamp" unknown)).

(** The runs of lines 18-57, the body of the [try], on a request body. *)
Inductive body_run (post_data : list byte) : M unit -> Prop :=
| body_undecoded e :
    decode post_data = Raise e ->
    body_run post_data ([], Raise e)
| body_head_fault d hl e :
    loads post_data = Ok (JObject d) ->
    printed (head (Py.dict_get d "reason" unknown)
                  (Py.dict_get d "timestamp" unknown)) = (hl, Some e) ->
    body_run post_data (map Print hl, Raise e)
| body_variant_fault d vl e :
    loads post_data = Ok (JObject d) ->
    head_loggable d = true ->
    variant_run d (Py.dict_get d "reason" unknown) vl (Some e) ->
    body_run post_data
      (map Print (head (Py.dict_get d "reason" unknown)
                       (Py.dict_get d "timestamp" unknown) ++ vl), Raise e)
| body_fleet_fault d vl fl e :
    loads post_data = Ok (JObject d) ->
    head_loggable d = true ->
    variant_run d (Py.dict_get d "reason" unknown) vl None ->
    fleet_run d fl (Some e) ->
    body_run post_data
      (map Print (head (Py.dict_get d "reason" unknown)
                       (Py.dict_get d "timestamp" unknown) ++ vl ++ fl),
       Raise e)
| body_success d vl fl :
    loads post_data = Ok (JObject d) ->
    head_loggable d = true ->
    variant_run d (Py.dict_get d "reason" unknown) vl None ->
    fleet_run d fl None ->
    body_run post_data
      (map Print (head (Py.dict_get d "reason" unknown)
                       (Py.dict_get d "timestamp" unknown)
                  ++ vl ++ fl ++ [success_line])
       ++ Sleep 1 :: ok_response, Ok tt).

(** A body that does not decode to a JSON object. *)
Inductive undecodable (post_data : list byte) : Prop :=
| not_utf8 e :
    Py.bytes_decode post_data = Raise e ->
    undecodable post_data
| not_json text e :
    Py.bytes_decode post_data = Ok text ->
    Py.json_loads text = Raise e ->
    undecodable post_data
| not_object text v :
    Py.bytes_decode post_data = Ok text ->
    Py.json_loads text = Ok v ->
    mapping v = false ->
    undecodable post_data.

(** The prediction block finds a dict to read: the reason does not select
    it, or [prediction_info] is a dict (or absent, when it is the empty
    dict). *)
Definition prediction_well_shaped (d : dict) : bool :=
  negb (Py.eq_str (Py.dict_get d "reason" unknown)
                  PREDICTED_HIGH_FLEET_CPU_LOAD)
  || mapping (Py.dict_get d "prediction_info" empty_dict).

(** The fleet block finds a dict to read: [fleet_metrics] is false (absent,
    empty, null, zero) or a dict. *)
Definition fleet_well_shaped (d : dict) : bool :=
  negb (Py.truthy (Py.dict_get d "fleet_metrics" empty_dict))
  || mapping (Py.dict_get d "fleet_metrics" empty_dict).

Definition well_shaped (d : dict) : bool :=
  prediction_well_shaped d && fleet_well_shaped d.

(** The values of the variant block that the reason selects can be
    written. *)
Definition variant_loggable (d : dict) : bool :=
  let reason := Py.dict_get d "reason" unknown in
  if Py.eq_str reason PREDICTED_HIGH_FLEET_CPU_LOAD then
    match Py.dict_get d "prediction_info" empty_dict with
    | JObject info => lines_loggable (prediction_lines info)
    | _ => true
    end
  else if Py.eq_str reason UNEXPECTED_NODE_FAILURE then
    lines_loggable
      (node_failure_lines (Py.dict_get d "failed_node_id" unknown)
                          (Py.dict_get d "failed_node_ip" unknown))
  else true.

(** The values of the fleet block can be written. *)
Definition fleet_loggable (d : dict) : bool :=
  match Py.dict_get d "fleet_metrics" empty_dict with
  | JObject metrics => lines_loggable (fleet_lines metrics)
  | _ => true
  end.

(** No string that the handler prints from the object holds a lone
    surrogate: the reason, the timestamp, and the fields of the blocks. *)
Definition values_loggable (d : dict) : bool :=
  head_loggable d && variant_loggable d && fleet_loggable d.

(** An object that is answered with status 200: its sub-records are dicts
    where the handler takes them for dicts, and what is printed from it can
    be written. *)
Definition accepted (d : dict) : bool := well_shaped d && values_loggable d.

(** Two dicts give the same answer for key [k]. *)
Definition agree (k : string) (d1 d2 : dict) : Prop :=
  Py.dict_lookup d1 k = Py.dict_lookup d2 k.

(** The top-level fields the handler knows. *)
Definition recognized : list string :=
  ["reason"; "timestamp"; "prediction_info"; "failed_node_id";
   "failed_node_ip"; "fleet_metrics"].

Definition lit_in (names : list string) (l : line) : bool :=
  match l with
  | Lit s :: _ => existsb (String.eqb s) names
  | _ => false
  end.

(** The lines of the prediction block and of the node-failure block, told by
    their literal text. *)
Definition prediction_line : line -> bool :=
  lit_in ["   🧠 ML PREDICTION:"; "      Predicted CPU: "; "      Horizon: ";
          "      Confidence: "].

Definition node_failure_line : line -> bool :=
  lit_in ["   💀 SELF-HEALING TRIGGERED:"; "      Failed Node ID: ";
          "      Failed Node IP: "; "   🔧 Provisioning replacement node..."].

(** The first line of a variant block. *)
Definition variant_header : line -> bool :=
  lit_in ["   🧠 ML PREDICTION:"; "   💀 SELF-HEALING TRIGGERED:"].

(* ================================================================== *)
(** * Sample requests *)
(* ================================================================== *)

Definition scenario_A : string :=
  quotes "{'reason': 'UNEXPECTED_NODE_FAILURE', 'timestamp': 't1', 'failed_node_id': 'n-42', 'failed_node_ip': '10.0.0.5'}".

Definition scenario_A_annotated : string :=
  quotes "{'reason': 'UNEXPECTED_NODE_FAILURE', 'timestamp': 't1', 'failed_node_id': 'n-42', 'failed_node_ip': '10.0.0.5', 'prediction_info': {'confidence': 1}}".

Definition scenario_B : string :=
  quotes "{'reason': 'PREDICTED_HIGH_FLEET_CPU_LOAD', 'prediction_info': {'predicted_cpu_usage': 92.5, 'confidence': 0.87}}".

Definition scenario_B_annotated : string :=
  quotes "{'reason': 'PREDICTED_HIGH_FLEET_CPU_LOAD', 'failed_node_id': 'n-1', 'prediction_info': {'predicted_cpu_usage': 92.5, 'confidence': 0.87}}".

Definition scenario_C : string := "{}".

Definition scenario_D : string := "not json".

Definition scenario_E : string :=
  quotes "{'reason': 'X', 'fleet_metrics': {'active_nodes': 7}}".

Definition scenario_E_annotated : string :=
  quotes "{'x': 1, 'reason': 'X', 'fleet_metrics': {'active_nodes': 7}, 'y': {}}".

Definition node_failure_with_fleet : string :=
  quotes "{'reason': 'UNEXPECTED_NODE_FAILURE', 'fleet_metrics': {'active_nodes': 3}}".

Definition prediction_info_is_text : string :=
  quotes "{'reason': 'PREDICTED_HIGH_FLEET_CPU_LOAD', 'prediction_info': 'x'}".

Definition fleet_metrics_is_number : string :=
  quotes "{'fleet_metrics': 5}".

Definition fleet_metrics_is_empty : string :=
  quotes "{'fleet_metrics': {}}".

Definition fleet_after_bad_prediction : string :=
  quotes "{'reason': 'PREDICTED_HIGH_FLEET_CPU_LOAD', 'prediction_info': 7, 'fleet_metrics': {'active_nodes': 3}}".

(** Objects with a string that cannot be written to the log: the escape of
    one half of a surrogate pair. *)
Definition reason_is_half_pair : string :=
  quotes "{'reason': '\ud83d'}".

Definition timestamp_is_half_pair : string :=
  quotes "{'reason': 'PREDICTED_HIGH_FLEET_CPU_LOAD', 'timestamp': '\ud83d', 'prediction_info': {'confidence': 0.9}}".

Definition prediction_value_is_half_pair : string :=
  quotes "{'reason': 'PREDICTED_HIGH_FLEET_CPU_LOAD', 'prediction_info': {'predicted_cpu_usage': '\ud83d'}}".

Definition fleet_value_is_half_pair : string :=
  quotes "{'fleet_metrics': {'active_nodes': '\ud83d'}}".

Definition fleet_after_half_pair : string :=
  quotes "{'reason': '\ud83d', 'fleet_metrics': {'active_nodes': 3}}".

(** A request that declares no length, and one whose length is not a
    number. *)
Definition no_length_request : request :=
  {| headers := [("Host", "localhost:8000")];
     rfile := list_byte_of_string scenario_C |}.

Definition bad_length_request : request :=
  {| headers := [("Host", "localhost:8000"); ("Content-Length", "abc")];
     rfile := list_byte_of_string scenario_C |}.

(* ================================================================== *)
(** * log_message, and further notions for the properties of do_POST *)
(* ================================================================== *)

(** What [datetime.now()] returns: a local date and time of day. *)
Record datetime : Type := {
  year : N;
  month : N;
  day : N;
  hour : N;
  minute : N;
  second : N;
  microsecond : N
}.

(** The ranges of the time fields of a [datetime], with the year from 1000
    on (below that the platforms differ on the width of [%Y]). *)
Definition in_range (t : datetime) : Prop :=
  (1000 <= year t <= 9999 /\ 1 <= month t <= 12 /\ 1 <= day t <= 31
   /\ hour t <= 23 /\ minute t <= 59 /\ second t <= 59)%N.

Definition digit_char (n : N) : ascii := ascii_of_N (48 + n).

(** The last [width] decimal digits of [n]: [n] padded with zeros on the
    left when it has fewer. *)
Fixpoint zero_padded (width : nat) (n : N) : string :=
  match width with
  | O => EmptyString
  | S w => zero_padded w (n / 10) ++ String (digit_char (n mod 10)) EmptyString
  end.

(** One directive of [strftime]: the six the handler's format uses and the
    percent sign.  [None] for any other, which is outside this model. *)
Definition directive (c : ascii) (t : datetime) : option string :=
  if Ascii.eqb c "Y" then Some (zero_padded 4 (year t))
  else if Ascii.eqb c "m" then Some (zero_padded 2 (month t))
  else if Ascii.eqb c "d" then Some (zero_padded 2 (day t))
  else if Ascii.eqb c "H" then Some (zero_padded 2 (hour t))
  else if Ascii.eqb c "M" then Some (zero_padded 2 (minute t))
  else if Ascii.eqb c "S" then Some (zero_padded 2 (second t))
  else if Ascii.eqb c "%" then Some "%"
  else None.

(** [t.strftime(format)]: directives are replaced, other characters are
    kept. *)
Fixpoint strftime (format : string) (t : datetime) : option string :=
  match format with
  | EmptyString => Some EmptyString
  | String c rest =>
      if Ascii.eqb c "%" then
        match rest with
        | String k rest' =>
            match directive k t, strftime rest' t with
            | Some field, Some text => Some (field ++ text)%string
            | _, _ => None
            end
        | EmptyString => None
        end
      else option_map (String c) (strftime rest t)
  end.

Definition log_format : string := "%Y-%m-%d %H:%M:%S".

(** Lines 9-11.  [now] is the clock's answer and [message] the value of
    [format % args], or the exception it raises.  The format of line 10 has
    only directives of the model, so its second branch is never taken
    ([strftime_log_format]). *)
Definition log_message (now : datetime) (message : result string) : M unit :=
  match strftime log_format now with
  | Some timestamp =>
      text <- lift message ;;
      print [Lit "["; Val (JString timestamp); Lit "] "; Val (JString text)]
  | None => ret tt
  end.

(** The text printed for a line whose values are all strings. *)
Fixpoint line_text (l : line) : option string :=
  match l with
  | [] => Some EmptyString
  | Lit s :: l' => option_map (String.append s) (line_text l')
  | Val (JString s) :: l' => option_map (String.append s) (line_text l')
  | _ :: _ => None
  end.

Definition first_of (c1 c2 : comparison) : comparison :=
  match c1 with
  | Eq => c2
  | _ => c1
  end.

(** Earlier, same second, or later. *)
Definition chronological (a b : datetime) : comparison :=
  first_of (year a ?= year b)%N
 (first_of (month a ?= month b)%N
 (first_of (day a ?= day b)%N
 (first_of (hour a ?= hour b)%N
 (first_of (minute a ?= minute b)%N
           (second a ?= second b)%N)))).

(** The timestamp of line 10, field by field. *)
Definition stamp_of (t : datetime) : string :=
  (zero_padded 4 (year t) ++ "-" ++ zero_padded 2 (month t) ++ "-"
   ++ zero_padded 2 (day t) ++ " " ++ zero_padded 2 (hour t) ++ ":"
   ++ zero_padded 2 (minute t) ++ ":" ++ zero_padded 2 (second t))%string.

(** Text of ASCII characters only. *)
Definition plain (s : string) : bool :=
  forallb (fun c => (N_of_ascii c <? 128)%N) (list_ascii_of_string s).

(** The value a [get] with default ["unknown"] gives for key [k]. *)
Definition or_unknown (d : dict) (k : string) : json :=
  match Py.dict_lookup d k with
  | Some v => v
  | None => JString "unknown"
  end.

(** The lines that close an audit record. *)
Definition closing_line : line -> bool :=
  lit_in [("   ✅ Webhook processed successfully" ++ nl)%string;
          "❌ Error processing webhook: "].

(** A body of JSON white space only (the empty body is one). *)
Definition blank (b : list byte) : bool :=
  forallb (fun x => Py.is_ws (ascii_of_byte x)) b.


(** More sample requests. *)
Definition null_reason : string :=
  quotes "{'reason': null, 'timestamp': 7}".

Definition scenario_E_noisy : string :=
  quotes "{'reason': 'X', 'prediction_info': 'x', 'failed_node_id': 3, 'fleet_metrics': {'active_nodes': 7}}".

Definition node_failure_zero_fleet : string :=
  quotes "{'reason': 'UNEXPECTED_NODE_FAILURE', 'fleet_metrics': 0}".

(** Two requests that declare two bytes; the second sends more. *)
Definition exact_request : request :=
  {| headers := [("Content-Length", "2")];
     rfile := list_byte_of_string "{}" |}.

Definition overlong_request : request :=
  {| headers := [("content-length", "2")];
     rfile := list_byte_of_string "{}, and the rest" |}.


Definition noon : datetime :=
  {| year := 2025; month := 3; day := 9; hour := 12; minute := 0;
     second := 5; microsecond := 0 |}.

Definition evening : datetime :=
  {| year := 2025; month := 3; day := 9; hour := 19; minute := 30;
     second := 0; microsecond := 250000 |}.

(** A scan that consumed text: it did not run out of fuel, and on success
    it left strictly less than it was given. *)
Definition progress (s : string) (r : Py.scanned) : Prop :=
  exists x, r = Some x /\
    forall v rest, x = Ok (v, rest) -> String.length rest < String.length s.


(* ================================================================== *)
(** * The scanner terminates within its fuel *)
(* ================================================================== *)

Section Scanner.
Import Py.
Local Open Scope string_scope.

Lemma skip_ws_length s : String.length (skip_ws s) <= String.length s.
Proof.
  induction s as [|c s IH]; simpl; [lia|].
  destruct (is_ws c); simpl; lia.
Qed.

Lemma emit_ok pre r body rest :
  emit pre r = Ok (body, rest) ->
  exists body', r = Ok (body', rest).
Proof.
  destruct r as [[b r']|e]; simpl; intros H; inversion H; subst; eauto.
Qed.

Lemma scanstring_length s : forall pend body rest,
  scanstring pend s = Ok (body, rest) ->
  String.length rest < String.length s.
Proof.
  induction s as [s IH] using (well_founded_induction
    (Wf_nat.well_founded_ltof _ String.length)).
  unfold Wf_nat.ltof in IH.
  intros pend body rest H.
  destruct s as [|c s']; simpl in H; [discriminate|].
  destruct (Ascii.eqb c dquote).
  { inversion H; subst; simpl; lia. }
  destruct (Ascii.eqb c backslash).
  { destruct s' as [|e s2]; [discriminate|].
    destruct (Ascii.eqb e "u").
    - destruct s2 as [|h1 [|h2 [|h3 [|h4 rest']]]]; try discriminate.
      destruct (hex4 h1 h2 h3 h4) as [u|]; [|discriminate].
      assert (L : forall p b r, scanstring p rest' = Ok (b, r) ->
                  String.length r < String.length rest')
        by (intros; eapply IH; [simpl; lia | eassumption]).
      destruct pend as [h|].
      + destruct (is_low u); [|destruct (is_high u)];
          apply emit_ok in H; destruct H as [b' H]; apply L in H; simpl; lia.
      + destruct (is_high u).
        * apply L in H; simpl; lia.
        * apply emit_ok in H; destruct H as [b' H]; apply L in H; simpl; lia.
    - destruct (unescape e); [|discriminate].
      apply emit_ok in H; destruct H as [b' H].
      apply IH in H; simpl in *; lia. }
  destruct (N_of_ascii c <? 32)%N; [discriminate|].
  apply emit_ok in H; destruct H as [b' H].
  apply IH in H; simpl in *; lia.
Qed.

Lemma span_digits_length s :
  String.length (snd (span_digits s)) <= String.length s.
Proof.
  induction s as [|c s IH]; simpl; [lia|].
  destruct (is_digit c); simpl; [|lia].
  destruct (span_digits s); simpl in *; lia.
Qed.

Lemma strip_prefix_length p : forall s r,
  strip_prefix p s = Some r ->
  String.length s = String.length p + String.length r.
Proof.
  induction p as [|a p IH]; simpl; intros s r H.
  - inversion H; reflexivity.
  - destruct s as [|b s]; [discriminate|].
    destruct (Ascii.eqb a b); [|discriminate].
    apply IH in H; simpl; lia.
Qed.

Lemma match_number_length s v rest :
  match_number s = Ok (v, rest) ->
  String.length rest < String.length s.
Proof.
  unfold match_number.
  set (hd := match s with
             | String c r => if Ascii.eqb c "-" then (true, r) else (false, s)
             | EmptyString => (false, s)
             end).
  assert (Hhd : String.length (snd hd) <= String.length s).
  { subst hd; destruct s as [|c r]; simpl; [lia|].
    destruct (Ascii.eqb c "-"); simpl; lia. }
  destruct hd as [neg s1]; simpl in Hhd.
  destruct s1 as [|c s2]; [discriminate|].
  destruct (is_digit c); [|discriminate].
  set (ip := if Ascii.eqb c "0" then (String c EmptyString, s2)
             else let (ds, r) := span_digits s2 in (String c ds, r)).
  assert (Hip : String.length (snd ip) <= String.length s2).
  { subst ip; destruct (Ascii.eqb c "0"); simpl; [lia|].
    pose proof (span_digits_length s2).
    destruct (span_digits s2); simpl in *; lia. }
  destruct ip as [ipart s3]; simpl in Hip.
  set (fp := match s3 with
             | String p (String d r) =>
                 if Ascii.eqb p "." && is_digit d then span_digits (String d r)
                 else (EmptyString, s3)
             | _ => (EmptyString, s3)
             end).
  assert (Hfp : String.length (snd fp) <= String.length s3).
  { subst fp; destruct s3 as [|p [|d r]]; simpl; try lia.
    destruct (Ascii.eqb p "." && is_digit d); simpl; [|lia].
    pose proof (span_digits_length (String d r)); simpl in *; lia. }
  destruct fp as [fpart s4]; simpl in Hfp.
  match goal with
  | |- (let '(epart, s5) := ?E in _) = _ -> _ => set (ep := E)
  end.
  assert (Hep : String.length (snd ep) <= String.length s4).
  { subst ep; destruct s4 as [|e r]; simpl; [lia|].
    destruct (Ascii.eqb e "e" || Ascii.eqb e "E"); simpl; [|lia].
    set (sg := match r with
               | String g r' =>
                   if Ascii.eqb g "-" then (true, r')
                   else if Ascii.eqb g "+" then (false, r')
                   else (false, r)
               | EmptyString => (false, r)
               end).
    assert (Hsg : String.length (snd sg) <= String.length r).
    { subst sg; destruct r as [|g r']; simpl; [lia|].
      destruct (Ascii.eqb g "-"); simpl; [lia|].
      destruct (Ascii.eqb g "+"); simpl; lia. }
    destruct sg as [eneg r1]; simpl in Hsg.
    pose proof (span_digits_length r1) as Hsp.
    destruct (span_digits r1) as [eds r2]; simpl in Hsp.
    destruct eds; simpl; lia. }
  destruct ep as [epart s5]; simpl in Hep.
  simpl in *.
  intros H.
  assert (rest = s5).
  { destruct fpart; destruct epart;
      try destruct (max_str_digits <? count_digits ipart)%N;
      inversion H; reflexivity. }
  subst; lia.
Qed.

Lemma scan_atom_length s v rest :
  scan_atom s = Ok (v, rest) ->
  String.length rest < String.length s.
Proof.
  unfold scan_atom.
  repeat match goal with
  | |- context [strip_prefix ?p s] =>
      let E := fresh "E" in
      destruct (strip_prefix p s) eqn:E;
      [ apply strip_prefix_length in E; simpl in E;
        intros H; inversion H; subst; lia | ]
  end.
  apply match_number_length.
Qed.

Lemma progress_malformed s : progress s malformed.
Proof. eexists; split; [reflexivity|]; intros; discriminate. Qed.

Lemma scan_fuel_ok : forall fuel,
  (forall s, 2 * String.length s + 1 <= fuel -> progress s (scan_once fuel s))
  /\ (forall acc s, 2 * String.length s + 2 <= fuel ->
        progress s (parse_members fuel acc s))
  /\ (forall acc s, 2 * String.length s + 2 <= fuel ->
        progress s (parse_elems fuel acc s)).
Proof.
  induction fuel as [|fuel (IHv & IHm & IHe)].
  { repeat split; intros; lia. }
  repeat split.
  - (* scan_once *)
    intros s Hf. simpl.
    destruct s as [|c s']; [apply progress_malformed|].
    simpl in Hf.
    destruct (Ascii.eqb c dquote).
    { destruct (scanstring None s') as [[str r]|e] eqn:E.
      - apply scanstring_length in E.
        eexists; split; [reflexivity|].
        intros v rest H; inversion H; subst; simpl; lia.
      - eexists; split; [reflexivity|]; intros; discriminate. }
    destruct (Ascii.eqb c "{").
    { pose proof (skip_ws_length s') as Hw.
      destruct (skip_ws s') as [|c1 r1] eqn:E; [apply progress_malformed|].
      simpl in Hw.
      destruct (Ascii.eqb c1 "}").
      - eexists; split; [reflexivity|].
        intros v rest H; inversion H; subst; simpl; lia.
      - destruct (IHm [] (String c1 r1)) as (x & Hx & Hl); [simpl; lia|].
        exists x; split; [exact Hx|].
        intros v rest H. specialize (Hl v rest H). simpl in *; lia. }
    destruct (Ascii.eqb c "[").
    { pose proof (skip_ws_length s') as Hw.
      destruct (skip_ws s') as [|c1 r1] eqn:E; [apply progress_malformed|].
      simpl in Hw.
      destruct (Ascii.eqb c1 "]").
      - eexists; split; [reflexivity|].
        intros v rest H; inversion H; subst; simpl; lia.
      - destruct (IHe [] (String c1 r1)) as (x & Hx & Hl); [simpl; lia|].
        exists x; split; [exact Hx|].
        intros v rest H. specialize (Hl v rest H). simpl in *; lia. }
    eexists; split; [reflexivity|].
    intros v rest H. apply scan_atom_length in H. exact H.
  - (* parse_members *)
    intros acc s Hf. simpl.
    destruct s as [|c s']; [apply progress_malformed|].
    simpl in Hf.
    destruct (Ascii.eqb c dquote); [|apply progress_malformed].
    destruct (scanstring None s') as [[key r1]|e] eqn:E;
      [|eexists; split; [reflexivity|]; intros; discriminate].
    apply scanstring_length in E.
    pose proof (skip_ws_length r1) as Hw1.
    destruct (skip_ws r1) as [|c2 r2]; [apply progress_malformed|].
    simpl in Hw1.
    destruct (Ascii.eqb c2 ":"); [|apply progress_malformed].
    pose proof (skip_ws_length r2) as Hw2.
    destruct (IHv (skip_ws r2)) as (x & Hx & Hl); [lia|].
    rewrite Hx.
    destruct x as [[v r3]|e];
      [|eexists; split; [reflexivity|]; intros; discriminate].
    specialize (Hl v r3 eq_refl).
    pose proof (skip_ws_length r3) as Hw3.
    destruct (skip_ws r3) as [|c4 r4]; [apply progress_malformed|].
    simpl in Hw3.
    destruct (Ascii.eqb c4 "}").
    { eexists; split; [reflexivity|].
      intros v' rest H; inversion H; subst; simpl; lia. }
    destruct (Ascii.eqb c4 ","); [|apply progress_malformed].
    pose proof (skip_ws_length r4) as Hw4.
    destruct (IHm (dict_set acc key v) (skip_ws r4)) as (y & Hy & Hl');
      [lia|].
    exists y; split; [exact Hy|].
    intros v' rest H. specialize (Hl' v' rest H). simpl; lia.
  - (* parse_elems *)
    intros acc s Hf. simpl.
    destruct (IHv s) as (x & Hx & Hl); [lia|].
    rewrite Hx.
    destruct x as [[v r1]|e];
      [|eexists; split; [reflexivity|]; intros; discriminate].
    specialize (Hl v r1 eq_refl).
    pose proof (skip_ws_length r1) as Hw1.
    destruct (skip_ws r1) as [|c2 r2]; [apply progress_malformed|].
    simpl in Hw1.
    destruct (Ascii.eqb c2 "]").
    { eexists; split; [reflexivity|].
      intros v' rest H; inversion H; subst; lia. }
    destruct (Ascii.eqb c2 ","); [|apply progress_malformed].
    pose proof (skip_ws_length r2) as Hw2.
    destruct (IHe (v :: acc) (skip_ws r2)) as (y & Hy & Hl'); [lia|].
    exists y; split; [exact Hy|].
    intros v' rest H. specialize (Hl' v' rest H). lia.
Qed.

(** [json_loads] gives the scanner enough fuel. *)
Lemma scan_fuel_enough s : Py.scan_once (Py.scan_fuel s) s <> None.
Proof.
  unfold Py.scan_fuel.
  destruct (scan_fuel_ok (2 * String.length s + 1)) as (Hv & _).
  destruct (Hv s) as (x & Hx & _); [lia|].
  rewrite Hx. discriminate.
Qed.

End Scanner.


(* ================================================================== *)
(** * The blocks of the handler *)
(* ================================================================== *)

Lemma mapping_cases v : (exists d, v = JObject d) \/ mapping v = false.
Proof. destruct v; simpl; eauto. Qed.

Lemma printed_loggable ls :
  lines_loggable ls = true -> printed ls = (ls, None).
Proof.
  induction ls as [|l ls IH]; [reflexivity|].
  cbn [lines_loggable forallb printed]. intros H.
  apply andb_true_iff in H. destruct H as [Hl Hls].
  rewrite Hl, (IH Hls). reflexivity.
Qed.

Lemma printed_none ls : forall vl,
  printed ls = (vl, None) -> vl = ls /\ lines_loggable ls = true.
Proof.
  induction ls as [|l ls IH]; intros vl H.
  - inversion H. now split.
  - cbn [printed] in H. cbn [lines_loggable forallb].
    destruct (forallb printable l); [|discriminate].
    destruct (printed ls) as [w e]. inversion H; subst.
    destruct (IH w eq_refl) as [-> E]. split; [reflexivity|exact E].
Qed.

Lemma printed_some ls : forall vl e,
  printed ls = (vl, Some e) ->
  e = UnicodeEncodeError /\ lines_loggable ls = false.
Proof.
  induction ls as [|l ls IH]; intros vl e H.
  - discriminate.
  - cbn [printed] in H. cbn [lines_loggable forallb].
    destruct (forallb printable l).
    + destruct (printed ls) as [w e']. inversion H; subst.
      destruct (IH w e eq_refl) as [-> E]. split; [reflexivity|exact E].
    + inversion H. now split.
Qed.

(** What was written is a part of what was to be written. *)
Lemma printed_forallb (P : line -> bool) ls : forall vl e,
  forallb P ls = true -> printed ls = (vl, e) -> forallb P vl = true.
Proof.
  induction ls as [|l ls IH]; intros vl e HP H.
  - inversion H. reflexivity.
  - cbn [printed] in H. cbn [forallb] in HP.
    apply andb_true_iff in HP. destruct HP as [Hl Hls].
    destruct (forallb printable l).
    + destruct (printed ls) as [w e']. inversion H; subst.
      cbn [forallb]. rewrite Hl. exact (IH w e Hls eq_refl).
    + inversion H. reflexivity.
Qed.

Lemma printed_filter_length (P : line -> bool) ls : forall vl e,
  printed ls = (vl, e) ->
  List.length (filter P vl) <= List.length (filter P ls).
Proof.
  induction ls as [|l ls IH]; intros vl e H.
  - inversion H. cbn. lia.
  - cbn [printed] in H.
    destruct (forallb printable l).
    + destruct (printed ls) as [w e']. inversion H; subst.
      specialize (IH w e eq_refl). cbn [filter].
      destruct (P l); cbn [List.length]; lia.
    + inversion H. cbn. lia.
Qed.

Lemma loggable_line_1 a v :
  forallb printable [Lit a; Val v] = loggable v.
Proof. cbn. apply andb_true_r. Qed.

Lemma loggable_line_2 a v b :
  forallb printable [Lit a; Val v; Lit b] = loggable v.
Proof. cbn. apply andb_true_r. Qed.

(** The prediction block prints its lines one after the other. *)
Lemma prediction_block_printed d info :
  Py.dict_get d "prediction_info" empty_dict = JObject info ->
  prediction_block (JObject d) =
  (map Print (fst (printed (prediction_lines info))),
   finish (snd (printed (prediction_lines info)))).
Proof.
  intros H. unfold prediction_block. cbn [Py.get]. rewrite H.
  unfold prediction_lines, shown, print, prediction_header.
  cbn [Py.get lift bind printed].
  change (Py.dict_get info "predicted_cpu_usage" not_available)
    with (match Py.dict_lookup info "predicted_cpu_usage" with
          | Some v => v | None => not_available end).
  change (Py.dict_get info "prediction_horizon_minutes" not_available)
    with (match Py.dict_lookup info "prediction_horizon_minutes" with
          | Some v => v | None => not_available end).
  change (Py.dict_get info "confidence" not_available)
    with (match Py.dict_lookup info "confidence" with
          | Some v => v | None => not_available end).
  rewrite !loggable_line_1, !loggable_line_2.
  cbn [forallb printable].
  repeat match goal with
  | |- context [loggable ?v] =>
      lazymatch v with
      | context [Py.dict_lookup] => destruct (loggable v)
      end
  end; reflexivity.
Qed.

Lemma prediction_block_fault d v :
  Py.dict_get d "prediction_info" empty_dict = v ->
  mapping v = false ->
  prediction_block (JObject d) = ([Print prediction_header], finish (no_get v)).
Proof.
  intros H Hm. unfold prediction_block. simpl Py.get. rewrite H.
  destruct v; try discriminate; reflexivity.
Qed.

Lemma node_failure_block_printed d :
  node_failure_block (JObject d) =
  (map Print
     (fst (printed
             (node_failure_lines (Py.dict_get d "failed_node_id" unknown)
                                 (Py.dict_get d "failed_node_ip" unknown)))),
   finish
     (snd (printed
             (node_failure_lines (Py.dict_get d "failed_node_id" unknown)
                                 (Py.dict_get d "failed_node_ip" unknown))))).
Proof.
  unfold node_failure_block, node_failure_lines, print, node_failure_header.
  cbn [Py.get lift bind printed].
  rewrite !loggable_line_1. cbn [forallb printable].
  destruct (loggable (Py.dict_get d "failed_node_id" unknown));
    destruct (loggable (Py.dict_get d "failed_node_ip" unknown));
    reflexivity.
Qed.

Lemma fleet_lines_printed metrics :
  (print [Lit "   📊 Fleet Status:"] ;;
   active <- lift (Py.get (JObject metrics) "active_nodes" not_available) ;;
   print [Lit "      Active Nodes: "; Val active] ;;
   cpu <- lift (Py.get (JObject metrics) "avg_cpu_usage" not_available) ;;
   print [Lit "      Avg CPU: "; Val cpu] ;;
   conns <-
     lift (Py.get (JObject metrics) "total_connections" not_available) ;;
   print [Lit "      Total Connections: "; Val conns]) =
  (map Print (fst (printed (fleet_lines metrics))),
   finish (snd (printed (fleet_lines metrics)))).
Proof.
  unfold fleet_lines, shown, print, fleet_header.
  cbn [Py.get lift bind printed].
  change (Py.dict_get metrics "active_nodes" not_available)
    with (match Py.dict_lookup metrics "active_nodes" with
          | Some v => v | None => not_available end).
  change (Py.dict_get metrics "avg_cpu_usage" not_available)
    with (match Py.dict_lookup metrics "avg_cpu_usage" with
          | Some v => v | None => not_available end).
  change (Py.dict_get metrics "total_connections" not_available)
    with (match Py.dict_lookup metrics "total_connections" with
          | Some v => v | None => not_available end).
  rewrite !loggable_line_1. cbn [forallb printable].
  repeat match goal with
  | |- context [loggable ?v] =>
      lazymatch v with
      | context [Py.dict_lookup] => destruct (loggable v)
      end
  end; reflexivity.
Qed.

Lemma variant_block_run d reason :
  exists ls e, variant_run d reason ls e /\
               variant_block (JObject d) reason = (map Print ls, finish e).
Proof.
  unfold variant_block.
  destruct (Py.eq_str reason PREDICTED_HIGH_FLEET_CPU_LOAD) eqn:E1.
  - destruct (mapping_cases (Py.dict_get d "prediction_info" empty_dict))
      as [[info H]|H].
    + destruct (printed (prediction_lines info)) as [vl e] eqn:P.
      exists vl, e; split.
      * eapply run_prediction; eassumption.
      * rewrite (prediction_block_printed d info H), P. reflexivity.
    + eexists _, _; split.
      * eapply run_prediction_fault; eauto.
      * now apply prediction_block_fault.
  - destruct (Py.eq_str reason UNEXPECTED_NODE_FAILURE) eqn:E2.
    + destruct (printed
                  (node_failure_lines
                     (Py.dict_get d "failed_node_id" unknown)
                     (Py.dict_get d "failed_node_ip" unknown)))
        as [vl e] eqn:P.
      exists vl, e; split; [now apply run_node_failure|].
      rewrite node_failure_block_printed, P. reflexivity.
    + exists [], None; split; [now apply run_unclassified|reflexivity].
Qed.

Lemma fleet_block_run d :
  exists ls e, fleet_run d ls e /\
               fleet_block (JObject d) = (map Print ls, finish e).
Proof.
  unfold fleet_block. simpl Py.get.
  destruct (Py.truthy (Py.dict_get d "fleet_metrics" empty_dict)) eqn:T.
  - destruct (mapping_cases (Py.dict_get d "fleet_metrics" empty_dict))
      as [[metrics H]|H].
    + destruct (printed (fleet_lines metrics)) as [fl e] eqn:P.
      exists fl, e; split.
      * eapply run_fleet_logged; [exact H| |exact P].
        intros ->. rewrite H in T. discriminate.
      * unfold bind at 1. unfold lift at 1. rewrite T, H.
        rewrite fleet_lines_printed, P. reflexivity.
    + eexists _, _; split.
      * eapply run_fleet_fault; eauto.
      * unfold bind, lift. rewrite T.
        destruct (Py.dict_get d "fleet_metrics" empty_dict);
          try discriminate; reflexivity.
  - exists [], None; split; [now apply run_fleet_skipped|].
    unfold bind, lift. rewrite T. reflexivity.
Qed.
(* ================================================================== *)
(** * The runs of the [try] body and of the handler *)
(* ================================================================== *)

Lemma decode_object b d :
  loads b = Ok (JObject d) ->
  decode b = Ok (JObject d, Py.dict_get d "reason" unknown,
                 Py.dict_get d "timestamp" unknown).
Proof. intros H. unfold decode. rewrite H. reflexivity. Qed.

Lemma decode_not_object b v :
  loads b = Ok v -> mapping v = false ->
  decode b = Raise (AttributeError v "get").
Proof.
  intros H Hm. unfold decode. rewrite H.
  destruct v; try discriminate; reflexivity.
Qed.

Lemma decode_raise b e : loads b = Raise e -> decode b = Raise e.
Proof. intros H. unfold decode. rewrite H. reflexivity. Qed.

(** Decoding fails exactly on the bodies that are not JSON objects. *)
Lemma decode_cases b :
  (exists d, loads b = Ok (JObject d)) \/ (exists e, decode b = Raise e).
Proof.
  destruct (loads b) as [v|e] eqn:E.
  - destruct (mapping_cases v) as [[d ->]|Hm]; [left; eauto|].
    right. exists (AttributeError v "get"). apply decode_not_object; assumption.
  - right. exists e. now apply decode_raise.
Qed.

Lemma undecodable_decode b :
  undecodable b -> exists e, decode b = Raise e.
Proof.
  intros [e H|text e H1 H2|text v H1 H2 Hm].
  - exists e. apply decode_raise. unfold loads. rewrite H. reflexivity.
  - exists e. apply decode_raise. unfold loads. rewrite H1. exact H2.
  - eexists. apply decode_not_object; [|exact Hm].
    unfold loads. rewrite H1. exact H2.
Qed.

Lemma bind_run {A B} t (a : A) (k : A -> M B) :
  bind (t, Ok a) k = (t ++ fst (k a), snd (k a)).
Proof. unfold bind. destruct (k a). reflexivity. Qed.

Lemma head_loggable_spec d :
  head_loggable d =
  loggable (Py.dict_get d "reason" unknown)
  && loggable (Py.dict_get d "timestamp" unknown).
Proof.
  unfold head_loggable, lines_loggable, head, banner, reason_line,
    timestamp_line.
  cbn [forallb printable]. now rewrite !andb_true_r.
Qed.

(** Every run of the [try] body is one of the five of [body_run]. *)
Lemma try_body_run b : body_run b (try_body b).
Proof.
  unfold try_body.
  destruct (decode_cases b) as [[d H]|[e H]].
  2:{ rewrite H. apply body_undecoded. exact H. }
  rewrite (decode_object b d H).
  unfold lift. rewrite bind_run. cbv beta iota.
  unfold dispatch.
  pose proof (head_loggable_spec d) as HL.
  destruct (loggable (Py.dict_get d "reason" unknown)) eqn:Lr.
  2:{ unfold print. cbn [forallb printable]. rewrite Lr.
      apply (body_head_fault b d [banner] UnicodeEncodeError H).
      unfold head, printed, banner, reason_line.
      cbn [forallb printable]. now rewrite Lr. }
  destruct (loggable (Py.dict_get d "timestamp" unknown)) eqn:Lt.
  2:{ unfold print. cbn [forallb printable]. rewrite Lr, Lt.
      apply (body_head_fault b d
               [banner; reason_line (Py.dict_get d "reason" unknown)]
               UnicodeEncodeError H).
      unfold head, printed, banner, reason_line, timestamp_line.
      cbn [forallb printable]. now rewrite Lr, Lt. }
  cbn [andb] in HL.
  destruct (variant_block_run d (Py.dict_get d "reason" unknown))
    as (vl & ve & Hv & Ev).
  destruct (fleet_block_run d) as (fl & fe & Hf & Ef).
  rewrite Ev, Ef. unfold print. cbn [forallb printable]. rewrite Lr, Lt.
  destruct ve as [e|].
  { simpl. now apply body_variant_fault. }
  destruct fe as [e|].
  { simpl.
    match goal with
    | |- body_run _ (?t, _) =>
        replace t
          with (map Print (head (Py.dict_get d "reason" unknown)
                                (Py.dict_get d "timestamp" unknown)
                           ++ vl ++ fl))
          by (simpl; rewrite ?map_app; reflexivity)
    end.
    now apply body_fleet_fault. }
  simpl.
  match goal with
  | |- body_run _ (?t, _) =>
      replace t
        with (map Print (head (Py.dict_get d "reason" unknown)
                              (Py.dict_get d "timestamp" unknown)
                         ++ vl ++ fl ++ [success_line])
              ++ Sleep 1 :: ok_response)
        by (simpl; rewrite ?map_app; simpl; rewrite <- ?app_assoc;
            reflexivity)
  end.
  now apply body_success.
Qed.

Lemma audit_prints ls t : audit (map Print ls ++ t) = ls ++ audit t.
Proof. induction ls as [|l ls IH]; simpl; [reflexivity|]. now rewrite IH. Qed.

Lemma wire_prints ls t : wire (map Print ls ++ t) = wire t.
Proof. induction ls as [|l ls IH]; simpl; [reflexivity|exact IH]. Qed.

Lemma delays_prints ls t : delays (map Print ls ++ t) = delays t.
Proof. induction ls as [|l ls IH]; simpl; [reflexivity|exact IH]. Qed.

Lemma handle_ok b t : try_body b = (t, Ok tt) -> handle b = (t, Ok tt).
Proof. intros H. unfold handle. rewrite H. reflexivity. Qed.

Lemma handle_fault b t e :
  try_body b = (t, Raise e) ->
  handle b = (t ++ Print (error_line e) :: bad_request, Ok tt).
Proof. intros H. unfold handle. rewrite H. reflexivity. Qed.

Lemma do_POST_read req b : read_body req = Ok b -> do_POST req = handle b.
Proof.
  intros H. unfold do_POST, lift. rewrite H, bind_run.
  destruct (handle b). reflexivity.
Qed.

Lemma do_POST_unread req e :
  read_body req = Raise e -> do_POST req = ([], Raise e).
Proof. intros H. unfold do_POST, lift. rewrite H. reflexivity. Qed.

(** No exception leaves the [try] statement. *)
Lemma handle_returns b : snd (handle b) = Ok tt.
Proof.
  unfold handle. destruct (try_body b) as [t [[]|e]]; reflexivity.
Qed.

Lemma object_decodes b d e :
  loads b = Ok (JObject d) -> decode b = Raise e -> False.
Proof. intros H1 H2. rewrite (decode_object b d H1) in H2. discriminate. Qed.

Lemma same_object b d d' :
  loads b = Ok (JObject d) -> loads b = Ok (JObject d') -> d' = d.
Proof. intros H1 H2. rewrite H1 in H2. now inversion H2. Qed.

(** The runs of [try_body b], one goal each, with the run rewritten in. *)
Ltac body_cases b :=
  let R := fresh "R" in
  let run := fresh "run" in
  pose proof (try_body_run b) as R;
  remember (try_body b) as run eqn:Erun in R;
  destruct R as [ e Hdec
                | d' hl e Hobj Hhead
                | d' vl e Hobj Hhl Hvar
                | d' vl fl e Hobj Hhl Hvar Hfleet
                | d' vl fl Hobj Hhl Hvar Hfleet ];
  symmetry in Erun.

Lemma dict_get_present d k v default :
  Py.dict_lookup d k = Some v -> Py.dict_get d k default = v.
Proof. intros H. unfold Py.dict_get. now rewrite H. Qed.

Lemma sent_status ls t c :
  In (SendResponse c) (map Print ls ++ t) -> In (SendResponse c) t.
Proof.
  intros H. apply in_app_or in H. destruct H as [H|H]; [|exact H].
  apply in_map_iff in H. destruct H as (l & Hl & _). discriminate.
Qed.

Lemma variant_run_shape d reason vl e :
  variant_run d reason vl e ->
  e = None ->
  vl = [] \/ (exists info, vl = prediction_lines info)
  \/ (exists id ip, vl = node_failure_lines id ip).
Proof.
  intros H He. destruct H as [info vl e E1 E2 P| |vl e E1 E2 P|];
    try discriminate; subst.
  - apply printed_none in P. destruct P as [-> _]. eauto.
  - apply printed_none in P. destruct P as [-> _]. eauto.
  - eauto.
Qed.

Lemma fleet_run_shape d fl e :
  fleet_run d fl e ->
  e = None ->
  fl = [] \/ (exists metrics, fl = fleet_lines metrics).
Proof.
  intros H He. destruct H as [|metrics fl e E Hne P|];
    try discriminate; subst.
  - eauto.
  - apply printed_none in P. destruct P as [-> _]. eauto.
Qed.

Lemma refused_status ls e c :
  In (SendResponse c) (map Print ls ++ Print (error_line e) :: bad_request) ->
  c = 400%Z.
Proof.
  intros H. apply sent_status in H.
  destruct H as [H|[H|[H|[]]]]; try discriminate. now inversion H.
Qed.

Lemma dict_get_agree k d1 d2 default :
  agree k d1 d2 -> Py.dict_get d1 k default = Py.dict_get d2 k default.
Proof. unfold agree, Py.dict_get. now intros ->. Qed.

Lemma prediction_block_agree d1 d2 :
  agree "prediction_info" d1 d2 ->
  prediction_block (JObject d1) = prediction_block (JObject d2).
Proof.
  intros H. unfold prediction_block. cbn [Py.get].
  now rewrite (dict_get_agree _ _ _ empty_dict H).
Qed.

Lemma node_failure_block_agree d1 d2 :
  agree "failed_node_id" d1 d2 ->
  agree "failed_node_ip" d1 d2 ->
  node_failure_block (JObject d1) = node_failure_block (JObject d2).
Proof.
  intros H1 H2. unfold node_failure_block. cbn [Py.get].
  now rewrite (dict_get_agree _ _ _ unknown H1),
              (dict_get_agree _ _ _ unknown H2).
Qed.

Lemma fleet_block_agree d1 d2 :
  agree "fleet_metrics" d1 d2 ->
  fleet_block (JObject d1) = fleet_block (JObject d2).
Proof.
  intros H. unfold fleet_block. cbn [Py.get].
  now rewrite (dict_get_agree _ _ _ empty_dict H).
Qed.

(** What the handler does with a dict is fixed by its reason, its
    timestamp, its fleet metrics and the block its reason selects. *)
Lemma handle_agree b1 b2 d1 d2 :
  loads b1 = Ok (JObject d1) ->
  loads b2 = Ok (JObject d2) ->
  agree "reason" d1 d2 ->
  agree "timestamp" d1 d2 ->
  agree "fleet_metrics" d1 d2 ->
  variant_block (JObject d1) (Py.dict_get d2 "reason" unknown) =
  variant_block (JObject d2) (Py.dict_get d2 "reason" unknown) ->
  handle b1 = handle b2.
Proof.
  intros H1 H2 Hr Ht Hf Hv.
  unfold handle, try_body.
  rewrite (decode_object b1 d1 H1), (decode_object b2 d2 H2).
  unfold lift. rewrite !bind_run. cbv beta iota.
  unfold dispatch.
  rewrite (dict_get_agree _ _ _ unknown Hr), (dict_get_agree _ _ _ unknown Ht).
  rewrite Hv, (fleet_block_agree _ _ Hf). reflexivity.
Qed.

Lemma filter_length_app {A} (f : A -> bool) l1 l2 :
  List.length (filter f (l1 ++ l2)) = List.length (filter f l1) + List.length (filter f l2).
Proof. now rewrite filter_app, length_app. Qed.

Lemma filter_none {A} (f : A -> bool) l :
  forallb (fun x => negb (f x)) l = true -> filter f l = [].
Proof.
  induction l as [|x l IH]; [reflexivity|].
  cbn [forallb filter]. intros H.
  apply andb_true_iff in H. destruct H as [Hx Hl].
  destruct (f x); [discriminate|]. now apply IH.
Qed.

Lemma variant_run_exclusive d reason vl e :
  variant_run d reason vl e ->
  (Py.eq_str reason PREDICTED_HIGH_FLEET_CPU_LOAD = true ->
   forallb (fun l => negb (node_failure_line l)) vl = true)
  /\ (Py.eq_str reason PREDICTED_HIGH_FLEET_CPU_LOAD = false ->
      forallb (fun l => negb (prediction_line l)) vl = true)
  /\ List.length (filter variant_header vl) <= 1.
Proof.
  intros H. destruct H as [info vl e E1 E2 P|v E1 E2 Hm|vl e E1 E2 P|E1 E2].
  - split; [|split].
    + intros _. eapply printed_forallb; [|exact P]. reflexivity.
    + rewrite E1. discriminate.
    + apply (printed_filter_length variant_header) in P.
      cbn in P. exact P.
  - split; [|split].
    + reflexivity.
    + rewrite E1. discriminate.
    + cbn. lia.
  - split; [|split].
    + rewrite E1. discriminate.
    + intros _. eapply printed_forallb; [|exact P]. reflexivity.
    + apply (printed_filter_length variant_header) in P.
      cbn in P. exact P.
  - split; [|split]; try reflexivity. cbn. lia.
Qed.

Lemma fleet_run_neutral d fl e :
  fleet_run d fl e ->
  forallb (fun l => negb (node_failure_line l)) fl = true
  /\ forallb (fun l => negb (prediction_line l)) fl = true
  /\ filter variant_header fl = [].
Proof.
  intros H. destruct H as [|metrics fl e E Hne P|]; try (repeat split).
  - eapply printed_forallb; [|exact P]. reflexivity.
  - eapply printed_forallb; [|exact P]. reflexivity.
  - apply filter_none. eapply printed_forallb; [|exact P]. reflexivity.
Qed.

(** A part of the head has no line of a variant block. *)
Lemma head_neutral r t hl e :
  printed (head r t) = (hl, e) ->
  forallb (fun l => negb (node_failure_line l)) hl = true
  /\ forallb (fun l => negb (prediction_line l)) hl = true
  /\ filter variant_header hl = [].
Proof.
  intros P. repeat split.
  - eapply printed_forallb; [|exact P]. reflexivity.
  - eapply printed_forallb; [|exact P]. reflexivity.
  - apply filter_none. eapply printed_forallb; [|exact P]. reflexivity.
Qed.

Lemma head_printed d :
  head_loggable d = true ->
  printed (head (Py.dict_get d "reason" unknown)
                (Py.dict_get d "timestamp" unknown))
  = (head (Py.dict_get d "reason" unknown)
          (Py.dict_get d "timestamp" unknown), None).
Proof. apply printed_loggable. Qed.

Lemma head_fault_unloggable d hl e :
  printed (head (Py.dict_get d "reason" unknown)
                (Py.dict_get d "timestamp" unknown)) = (hl, Some e) ->
  head_loggable d = false.
Proof. intros P. now apply printed_some in P. Qed.

(** A variant block that ran to its end found its dict and could write its
    values; one that did not, lacked one of the two. *)
Lemma variant_run_well_shaped d vl :
  variant_run d (Py.dict_get d "reason" unknown) vl None ->
  prediction_well_shaped d = true.
Proof.
  intros H. unfold prediction_well_shaped.
  inversion H as [info vl' e' E1 E2 P| |vl' e' E1 E2 P|E1 E2]; subst.
  - rewrite E2. apply orb_true_r.
  - now rewrite E1.
  - now rewrite E1.
Qed.

Lemma variant_run_loggable d vl :
  variant_run d (Py.dict_get d "reason" unknown) vl None ->
  variant_loggable d = true.
Proof.
  intros H. unfold variant_loggable.
  inversion H as [info vl' e' E1 E2 P| |vl' e' E1 E2 P|E1 E2]; subst.
  - rewrite E1, E2. now apply printed_none in P.
  - rewrite E1, E2. now apply printed_none in P.
  - now rewrite E1, E2.
Qed.

Lemma variant_fault_refused d vl e :
  variant_run d (Py.dict_get d "reason" unknown) vl (Some e) ->
  prediction_well_shaped d && variant_loggable d = false.
Proof.
  intros H. unfold prediction_well_shaped, variant_loggable.
  inversion H as [info vl' e' E1 E2 P|v E1 E2 Hm|vl' e' E1 E2 P|]; subst.
  - rewrite E1, E2. apply printed_some in P. destruct P as [_ ->].
    apply andb_false_r.
  - now rewrite E1, Hm.
  - rewrite E1, E2. apply printed_some in P. destruct P as [_ ->].
    apply andb_false_r.
Qed.

Lemma fleet_run_well_shaped d fl :
  fleet_run d fl None -> fleet_well_shaped d = true.
Proof.
  intros H. unfold fleet_well_shaped.
  inversion H as [T|metrics fl' e' E Hne P|]; subst.
  - now rewrite T.
  - rewrite E. apply orb_true_r.
Qed.

Lemma fleet_lines_empty_loggable : lines_loggable (fleet_lines []) = true.
Proof. reflexivity. Qed.

Lemma fleet_run_loggable d fl :
  fleet_run d fl None -> fleet_loggable d = true.
Proof.
  intros H. unfold fleet_loggable.
  inversion H as [T|metrics fl' e' E Hne P|]; subst.
  - destruct (Py.dict_get d "fleet_metrics" empty_dict) as [| | | | | |m];
      try reflexivity.
    destruct m; [reflexivity|discriminate].
  - rewrite E. now apply printed_none in P.
Qed.

Lemma fleet_fault_refused d fl e :
  fleet_run d fl (Some e) ->
  fleet_well_shaped d && fleet_loggable d = false.
Proof.
  intros H. unfold fleet_well_shaped, fleet_loggable.
  inversion H as [|metrics fl' e' E Hne P|v E1 E2 Hm]; subst.
  - rewrite E. apply printed_some in P. destruct P as [_ ->].
    apply andb_false_r.
  - now rewrite E2, Hm.
Qed.

Lemma accepted_split d :
  accepted d =
  head_loggable d
  && (prediction_well_shaped d && variant_loggable d)
  && (fleet_well_shaped d && fleet_loggable d).
Proof.
  unfold accepted, well_shaped, values_loggable.
  destruct (head_loggable d), (prediction_well_shaped d),
    (variant_loggable d), (fleet_well_shaped d), (fleet_loggable d);
    reflexivity.
Qed.

(** The run of the [try] body on an object of either kind. *)
Lemma accepted_run b d :
  loads b = Ok (JObject d) ->
  accepted d = true ->
  exists vl fl,
    variant_run d (Py.dict_get d "reason" unknown) vl None
    /\ fleet_run d fl None
    /\ try_body b =
       (map Print (head (Py.dict_get d "reason" unknown)
                        (Py.dict_get d "timestamp" unknown)
                   ++ vl ++ fl ++ [success_line])
        ++ Sleep 1 :: ok_response, Ok tt).
Proof.
  intros Hloads Hacc. rewrite accepted_split in Hacc.
  body_cases b.
  - exfalso. eapply object_decodes; eassumption.
  - exfalso. rewrite (same_object b d d' Hloads Hobj) in *.
    rewrite (head_fault_unloggable d hl e Hhead) in Hacc. discriminate.
  - exfalso. rewrite (same_object b d d' Hloads Hobj) in *.
    rewrite (variant_fault_refused d vl e Hvar), andb_false_r in Hacc.
    discriminate.
  - exfalso. rewrite (same_object b d d' Hloads Hobj) in *.
    rewrite (fleet_fault_refused d fl e Hfleet), andb_false_r in Hacc.
    discriminate.
  - rewrite (same_object b d d' Hloads Hobj) in *.
    exists vl, fl. repeat split; assumption.
Qed.

Lemma refused_run b d :
  loads b = Ok (JObject d) ->
  accepted d = false ->
  exists ls e, try_body b = (map Print ls, Raise e).
Proof.
  intros Hloads Hacc. rewrite accepted_split in Hacc.
  body_cases b.
  - exfalso. eapply object_decodes; eassumption.
  - eauto.
  - eauto.
  - eauto.
  - exfalso. rewrite (same_object b d d' Hloads Hobj) in *.
    rewrite Hhl, (variant_run_well_shaped d vl Hvar),
      (variant_run_loggable d vl Hvar),
      (fleet_run_well_shaped d fl Hfleet),
      (fleet_run_loggable d fl Hfleet) in Hacc.
    discriminate.
Qed.

(** The status of the answer is decided by the object. *)
Lemma wire_by_shape req b d :
  read_body req = Ok b ->
  loads b = Ok (JObject d) ->
  wire (fst (do_POST req)) = if accepted d then ok_response else bad_request.
Proof.
  intros Hread Hloads.
  rewrite (do_POST_read req b Hread), accepted_split.
  body_cases b.
  - exfalso. eapply object_decodes; eassumption.
  - rewrite (same_object b d d' Hloads Hobj) in *.
    rewrite (head_fault_unloggable d hl e Hhead).
    rewrite (handle_fault b _ _ Erun). cbn [fst andb].
    now rewrite wire_prints.
  - rewrite (same_object b d d' Hloads Hobj) in *.
    rewrite (variant_fault_refused d vl e Hvar), andb_false_r.
    rewrite (handle_fault b _ _ Erun). cbn [fst andb].
    now rewrite wire_prints.
  - rewrite (same_object b d d' Hloads Hobj) in *.
    rewrite (fleet_fault_refused d fl e Hfleet), andb_false_r.
    rewrite (handle_fault b _ _ Erun). cbn [fst].
    now rewrite wire_prints.
  - rewrite (same_object b d d' Hloads Hobj) in *.
    rewrite Hhl, (variant_run_well_shaped d vl Hvar),
      (variant_run_loggable d vl Hvar),
      (fleet_run_well_shaped d fl Hfleet),
      (fleet_run_loggable d fl Hfleet).
    rewrite (handle_ok b _ Erun). cbn [fst andb].
    now rewrite wire_prints.
Qed.

(** The other objects are all refused. *)
Lemma ill_shaped_is_refused req b d :
  read_body req = Ok b ->
  loads b = Ok (JObject d) ->
  well_shaped d = false ->
  wire (fst (do_POST req)) = bad_request.
Proof.
  intros Hread Hloads Hshape.
  rewrite (wire_by_shape req b d Hread Hloads).
  unfold accepted. now rewrite Hshape.
Qed.

(* ================================================================== *)
(** * The scenarios of the specification *)
(* ================================================================== *)

Example success_body_text :
  Py.str_encode (Py.json_dumps response) = success_body.
Proof. reflexivity. Qed.

Example scenario_A_run :
  do_POST (post scenario_A) =
  (map Print
     [banner;
      reason_line (JString "UNEXPECTED_NODE_FAILURE");
      timestamp_line (JString "t1");
      node_failure_header;
      [Lit "      Failed Node ID: "; Val (JString "n-42")];
      [Lit "      Failed Node IP: "; Val (JString "10.0.0.5")];
      [Lit "   🔧 Provisioning replacement node..."];
      success_line]
   ++ [Sleep 1] ++ ok_response,
   Ok tt).
Proof. vm_compute. reflexivity. Qed.

Example scenario_C_run :
  do_POST (post scenario_C) =
  (map Print
     [banner; reason_line unknown; timestamp_line unknown; success_line]
   ++ [Sleep 1] ++ ok_response,
   Ok tt).
Proof. vm_compute. reflexivity. Qed.

Example scenario_D_run :
  do_POST (post scenario_D) =
  ([Print (error_line JSONDecodeError)] ++ bad_request, Ok tt).
Proof. vm_compute. reflexivity. Qed.

Example scenario_E_run :
  do_POST (post scenario_E) =
  (map Print
     [banner; reason_line (JString "X"); timestamp_line unknown;
      fleet_header;
      [Lit "      Active Nodes: "; Val (JInt 7)];
      [Lit "      Avg CPU: "; Val not_available];
      [Lit "      Total Connections: "; Val not_available];
      success_line]
   ++ [Sleep 1] ++ ok_response,
   Ok tt).
Proof. vm_compute. reflexivity. Qed.

Example invalid_utf8_run :
  do_POST {| headers := [("Content-Length", "2")];
             rfile := [Byte.xc3; Byte.x28] |} =
  ([Print (error_line UnicodeDecodeError)] ++ bad_request, Ok tt).
Proof. vm_compute. reflexivity. Qed.

(** A reason that cannot be written: the banner is printed, the reason line
    is not, and the fault is answered with status 400. *)
Example half_pair_run :
  do_POST (post reason_is_half_pair) =
  (map Print [banner; error_line UnicodeEncodeError] ++ bad_request, Ok tt).
Proof. vm_compute. reflexivity. Qed.

(** A list is printed with its strings quoted and escaped, so a half pair
    inside it is no fault. *)
Example half_pair_in_list_run :
  wire (fst (do_POST (post (quotes "{'reason': ['\ud83d']}")))) = ok_response.
Proof. vm_compute. reflexivity. Qed.

(* ================================================================== *)
(** * Properties of the handler *)
(* ================================================================== *)

(** ** Decoding *)



(** C2.  A body that is not valid UTF-8, or not JSON, or JSON whose top-level
    value is not an object, fails to decode, and the request is answered
    with status 400 and nothing after the headers; the only other event is
    the error line. *)
Theorem undecodable_is_refused req b :
  read_body req = Ok b ->
  undecodable b ->
  exists e,
    decode b = Raise e
    /\ do_POST req = ([Print (error_line e); SendResponse 400; EndHeaders],
                      Ok tt).
Proof.
  intros Hread Hbad.
  destruct (undecodable_decode b Hbad) as [e He].
  exists e. split; [exact He|].
  rewrite (do_POST_read req b Hread).
  unfold handle, try_body. rewrite He. reflexivity.
Qed.

Lemma undecodable_is_refused_witness :
  exists e,
    decode (list_byte_of_string scenario_D) = Raise e
    /\ do_POST (post scenario_D) =
       ([Print (error_line e); SendResponse 400; EndHeaders], Ok tt).
Proof.
  apply (undecodable_is_refused (post scenario_D)
           (list_byte_of_string scenario_D)).
  - vm_compute. reflexivity.
  - apply (not_json _ scenario_D JSONDecodeError); vm_compute; reflexivity.
Defined.

(** ** The response *)

(** C1, as amended.  When the body decodes to a JSON object whose
    [prediction_info] is a dict or absent whenever the reason is
    [PREDICTED_HIGH_FLEET_CPU_LOAD], whose [fleet_metrics] is a dict,
    absent or a false value, and in which no string that the handler prints
    (the reason, the timestamp, the fields of the selected variant block and
    of the fleet metrics) holds a lone surrogate, the [try] body ends
    without a fault, the handler returns normally, and the response is
    status 200 with the content type and the fixed success body. *)
Theorem well_shaped_is_accepted req b d :
  read_body req = Ok b ->
  loads b = Ok (JObject d) ->
  well_shaped d = true ->
  values_loggable d = true ->
  snd (try_body b) = Ok tt
  /\ snd (do_POST req) = Ok tt
  /\ wire (fst (do_POST req)) = ok_response.
Proof.
  intros Hread Hloads Hshape Hlog.
  assert (Hacc : accepted d = true)
    by (unfold accepted; now rewrite Hshape, Hlog).
  destruct (accepted_run b d Hloads Hacc) as (vl & fl & _ & _ & Erun).
  rewrite (do_POST_read req b Hread), (handle_ok b _ Erun), Erun.
  cbn [fst snd]. rewrite wire_prints. repeat split.
Qed.

Lemma well_shaped_is_accepted_witness :
  snd (try_body (list_byte_of_string scenario_A)) = Ok tt
  /\ snd (do_POST (post scenario_A)) = Ok tt
  /\ wire (fst (do_POST (post scenario_A))) = ok_response.
Proof.
  apply (well_shaped_is_accepted (post scenario_A)
           (list_byte_of_string scenario_A)
           [("reason", JString "UNEXPECTED_NODE_FAILURE");
            ("timestamp", JString "t1");
            ("failed_node_id", JString "n-42");
            ("failed_node_ip", JString "10.0.0.5")]);
    vm_compute; reflexivity.
Defined.

(** C1, as stated, fails: the three bodies below decode to JSON objects, and
    all are answered with status 400: a sub-record that is not a dict has
    no [get], and a string with a lone surrogate cannot be printed. *)
Lemma decoded_object_is_refused :
  (exists d, loads (list_byte_of_string prediction_info_is_text)
             = Ok (JObject d))
  /\ wire (fst (do_POST (post prediction_info_is_text))) = bad_request
  /\ wire (fst (do_POST (post prediction_info_is_text))) <> ok_response
  /\ (exists d, loads (list_byte_of_string fleet_metrics_is_number)
                = Ok (JObject d))
  /\ wire (fst (do_POST (post fleet_metrics_is_number))) = bad_request
  /\ wire (fst (do_POST (post fleet_metrics_is_number))) <> ok_response
  /\ (exists d, loads (list_byte_of_string reason_is_half_pair)
                = Ok (JObject d) /\ well_shaped d = true)
  /\ wire (fst (do_POST (post reason_is_half_pair))) = bad_request
  /\ wire (fst (do_POST (post reason_is_half_pair))) <> ok_response.
Proof.
  repeat split;
    try (eexists; vm_compute; reflexivity);
    try (eexists; split; vm_compute; reflexivity);
    try (vm_compute; reflexivity);
    vm_compute; discriminate.
Qed.

(** C4 fails on the code: lines 14-15 stand before the [try], so a request
    without a [Content-Length] header, or with one that is not a number,
    makes [int] raise out of [do_POST]; no response is sent and nothing is
    logged. *)
Theorem length_fault_escapes :
  do_POST no_length_request = ([], Raise TypeError)
  /\ do_POST bad_length_request = ([], Raise ValueError).
Proof. split; vm_compute; reflexivity. Qed.

(** ** The audit record *)

(** C3, as amended.  When [fleet_metrics] is a non-empty dict, the
    prediction block (if the reason selects it) finds a dict to read, and
    no string that the handler prints holds a lone surrogate, then
    whichever variant block ran, the audit record is the head lines, that
    variant block, the fleet block with each of the three metrics shown by
    its value or by ["N/A"], and the success line. *)
Theorem fleet_metrics_logged req b d metrics :
  read_body req = Ok b ->
  loads b = Ok (JObject d) ->
  Py.dict_lookup d "fleet_metrics" = Some (JObject metrics) ->
  metrics <> [] ->
  prediction_well_shaped d = true ->
  values_loggable d = true ->
  exists variant,
    variant_run d (Py.dict_get d "reason" unknown) variant None
    /\ audit (fst (do_POST req)) =
       head (Py.dict_get d "reason" unknown)
            (Py.dict_get d "timestamp" unknown)
       ++ variant ++ fleet_lines metrics ++ [success_line].
Proof.
  intros Hread Hloads Hfm Hne Hp Hlog.
  apply (dict_get_present _ _ _ empty_dict) in Hfm.
  assert (Hacc : accepted d = true).
  { unfold accepted, well_shaped, fleet_well_shaped.
    rewrite Hp, Hlog, Hfm. cbn [mapping]. now rewrite orb_true_r. }
  destruct (accepted_run b d Hloads Hacc) as (vl & fl & Hvar & Hfleet & Erun).
  exists vl. split; [exact Hvar|].
  rewrite (do_POST_read req b Hread), (handle_ok b _ Erun). cbn [fst].
  rewrite audit_prints. cbn [audit flat_map]. rewrite app_nil_r.
  inversion Hfleet as [T|metrics' fl' e' E Hne' P|]; subst.
  - rewrite Hfm in T. destruct metrics; [congruence|discriminate].
  - rewrite Hfm in E. inversion E; subst.
    apply printed_none in P. destruct P as [-> _]. reflexivity.
Qed.

Lemma fleet_metrics_logged_witness :
  exists variant,
    variant_run [("reason", JString "UNEXPECTED_NODE_FAILURE");
                 ("fleet_metrics", JObject [("active_nodes", JInt 3)])]
                (JString "UNEXPECTED_NODE_FAILURE") variant None
    /\ audit (fst (do_POST (post node_failure_with_fleet))) =
       head (JString "UNEXPECTED_NODE_FAILURE") (JString "unknown")
       ++ variant ++ fleet_lines [("active_nodes", JInt 3)] ++ [success_line].
Proof.
  apply (fleet_metrics_logged (post node_failure_with_fleet)
           (list_byte_of_string node_failure_with_fleet)
           [("reason", JString "UNEXPECTED_NODE_FAILURE");
            ("fleet_metrics", JObject [("active_nodes", JInt 3)])]
           [("active_nodes", JInt 3)]);
    try (vm_compute; reflexivity).
  discriminate.
Defined.

(** C3, as stated, fails: [fleet_metrics] is present in the bodies below,
    and the fleet block is not in the audit record: an empty dict is false,
    and a fault before the fleet block (a prediction block without its
    dict, a reason that cannot be printed) ends the record before it. *)
Lemma present_fleet_metrics_not_logged :
  Py.dict_lookup [("fleet_metrics", JObject [])] "fleet_metrics"
    = Some (JObject [])
  /\ loads (list_byte_of_string fleet_metrics_is_empty)
     = Ok (JObject [("fleet_metrics", JObject [])])
  /\ audit (fst (do_POST (post fleet_metrics_is_empty))) =
     [banner; reason_line unknown; timestamp_line unknown; success_line]
  /\ ~ In fleet_header (audit (fst (do_POST (post fleet_metrics_is_empty))))
  /\ (exists d, loads (list_byte_of_string fleet_after_bad_prediction)
                = Ok (JObject d)
                /\ Py.dict_lookup d "fleet_metrics"
                   = Some (JObject [("active_nodes", JInt 3)]))
  /\ ~ In fleet_header
          (audit (fst (do_POST (post fleet_after_bad_prediction))))
  /\ (exists d, loads (list_byte_of_string fleet_after_half_pair)
                = Ok (JObject d)
                /\ Py.dict_lookup d "fleet_metrics"
                   = Some (JObject [("active_nodes", JInt 3)])
                /\ prediction_well_shaped d = true)
  /\ ~ In fleet_header
          (audit (fst (do_POST (post fleet_after_half_pair)))).
Proof.
  repeat split;
    try (vm_compute; reflexivity).
  - vm_compute. intros H.
    repeat (destruct H as [H|H]; [discriminate|]). exact H.
  - eexists. split; vm_compute; reflexivity.
  - vm_compute. intros H.
    repeat (destruct H as [H|H]; [discriminate|]). exact H.
  - eexists. split; [|split]; vm_compute; reflexivity.
  - vm_compute. intros H.
    repeat (destruct H as [H|H]; [discriminate|]). exact H.
Qed.

(** C9, as amended.  When the reason is [PREDICTED_HIGH_FLEET_CPU_LOAD],
    [prediction_info] is a dict, and neither the timestamp nor a field of
    the prediction block is a string with a lone surrogate, the audit
    record starts with the head lines and the prediction block, in which
    predicted CPU usage, horizon and confidence are each shown by the
    field's value when the dict has it and by ["N/A"] when it has not. *)
Theorem prediction_fields_logged req b d info :
  read_body req = Ok b ->
  loads b = Ok (JObject d) ->
  Py.dict_get d "reason" unknown = JString PREDICTED_HIGH_FLEET_CPU_LOAD ->
  Py.dict_get d "prediction_info" empty_dict = JObject info ->
  loggable (Py.dict_get d "timestamp" unknown) = true ->
  lines_loggable (prediction_lines info) = true ->
  exists rest,
    audit (fst (do_POST req)) =
      [banner;
       reason_line (JString PREDICTED_HIGH_FLEET_CPU_LOAD);
       timestamp_line (Py.dict_get d "timestamp" unknown);
       prediction_header;
       [Lit "      Predicted CPU: "; Val (shown info "predicted_cpu_usage")];
       [Lit "      Horizon: "; Val (shown info "prediction_horizon_minutes");
        Lit " minutes"];
       [Lit "      Confidence: "; Val (shown info "confidence")]]
      ++ rest.
Proof.
  intros Hread Hloads Hreason Hinfo Hts Hpl.
  rewrite (do_POST_read req b Hread).
  assert (Hhd : head_loggable d = true).
  { rewrite head_loggable_spec, Hreason, Hts. reflexivity. }
  assert (Hvl : forall vl e,
             variant_run d (Py.dict_get d "reason" unknown) vl e ->
             vl = prediction_lines info /\ e = None).
  { intros vl e H. rewrite Hreason in H.
    inversion H as [info' vl' e' E1 E2 P|v E1 E2 Hm|vl' e' E1 E2 P|E1 E2];
      subst.
    - rewrite Hinfo in E2. inversion E2; subst.
      rewrite (printed_loggable _ Hpl) in P. inversion P. now split.
    - rewrite Hinfo in Hm. discriminate.
    - discriminate.
    - discriminate. }
  body_cases b.
  - exfalso. eapply object_decodes; eassumption.
  - rewrite (same_object b d d' Hloads Hobj) in *.
    rewrite (head_fault_unloggable d hl e Hhead) in Hhd. discriminate.
  - rewrite (same_object b d d' Hloads Hobj) in *.
    apply Hvl in Hvar. destruct Hvar as [_ ?]. discriminate.
  - rewrite (same_object b d d' Hloads Hobj) in *.
    apply Hvl in Hvar. destruct Hvar as [-> _].
    rewrite (handle_fault b _ _ Erun). cbn [fst].
    rewrite audit_prints. rewrite Hreason.
    exists (fl ++ [error_line e]). cbn [audit flat_map app].
    unfold head, prediction_lines. cbn [app]. reflexivity.
  - rewrite (same_object b d d' Hloads Hobj) in *.
    apply Hvl in Hvar. destruct Hvar as [-> _].
    rewrite (handle_ok b _ Erun). cbn [fst].
    rewrite audit_prints. rewrite Hreason.
    exists (fl ++ [success_line]). cbn [audit flat_map app].
    unfold head, prediction_lines. cbn [app]. now rewrite app_nil_r.
Qed.

Lemma prediction_fields_logged_witness :
  exists rest,
    audit (fst (do_POST (post scenario_B))) =
      [banner;
       reason_line (JString PREDICTED_HIGH_FLEET_CPU_LOAD);
       timestamp_line (JString "unknown");
       prediction_header;
       [Lit "      Predicted CPU: "; Val (JFloat (FDec false 925 (-1)))];
       [Lit "      Horizon: "; Val (JString "N/A"); Lit " minutes"];
       [Lit "      Confidence: "; Val (JFloat (FDec false 87 (-2)))]]
      ++ rest.
Proof.
  apply (prediction_fields_logged (post scenario_B)
           (list_byte_of_string scenario_B)
           [("reason", JString "PREDICTED_HIGH_FLEET_CPU_LOAD");
            ("prediction_info",
             JObject [("predicted_cpu_usage", JFloat (FDec false 925 (-1)));
                      ("confidence", JFloat (FDec false 87 (-2)))])]
           [("predicted_cpu_usage", JFloat (FDec false 925 (-1)));
            ("confidence", JFloat (FDec false 87 (-2)))]);
    vm_compute; reflexivity.
Defined.

(** C9, as stated, fails: both bodies below have the prediction reason and
    a dict for [prediction_info].  In the first the timestamp cannot be
    printed, and the record ends before the prediction block; in the second
    the predicted CPU usage cannot be printed, and the record ends after
    the header of the block, with none of the three fields logged. *)
Lemma prediction_fields_not_logged :
  (exists d info,
     loads (list_byte_of_string timestamp_is_half_pair) = Ok (JObject d)
     /\ Py.dict_get d "reason" unknown
        = JString PREDICTED_HIGH_FLEET_CPU_LOAD
     /\ Py.dict_get d "prediction_info" empty_dict = JObject info)
  /\ audit (fst (do_POST (post timestamp_is_half_pair))) =
     [banner; reason_line (JString PREDICTED_HIGH_FLEET_CPU_LOAD);
      error_line UnicodeEncodeError]
  /\ (exists d info,
        loads (list_byte_of_string prediction_value_is_half_pair)
        = Ok (JObject d)
        /\ Py.dict_get d "reason" unknown
           = JString PREDICTED_HIGH_FLEET_CPU_LOAD
        /\ Py.dict_get d "prediction_info" empty_dict = JObject info)
  /\ audit (fst (do_POST (post prediction_value_is_half_pair))) =
     [banner; reason_line (JString PREDICTED_HIGH_FLEET_CPU_LOAD);
      timestamp_line unknown; prediction_header;
      error_line UnicodeEncodeError].
Proof.
  split; [|split; [|split]].
  - eexists _, _. repeat split; vm_compute; reflexivity.
  - vm_compute. reflexivity.
  - eexists _, _. repeat split; vm_compute; reflexivity.
  - vm_compute. reflexivity.
Qed.

(** The parts of the audit record of a body that decodes to an object: what
    was written of the head, of the variant block and of the fleet block,
    and the closing line. *)
Lemma audit_parts req b d :
  read_body req = Ok b ->
  loads b = Ok (JObject d) ->
  exists hl vl fl last,
    audit (fst (do_POST req)) = hl ++ vl ++ fl ++ [last]
    /\ (forallb (fun l => negb (node_failure_line l)) hl = true
        /\ forallb (fun l => negb (prediction_line l)) hl = true
        /\ filter variant_header hl = [])
    /\ ((Py.eq_str (Py.dict_get d "reason" unknown)
                   PREDICTED_HIGH_FLEET_CPU_LOAD = true ->
         forallb (fun l => negb (node_failure_line l)) vl = true)
        /\ (Py.eq_str (Py.dict_get d "reason" unknown)
                      PREDICTED_HIGH_FLEET_CPU_LOAD = false ->
            forallb (fun l => negb (prediction_line l)) vl = true)
        /\ List.length (filter variant_header vl) <= 1)
    /\ (forallb (fun l => negb (node_failure_line l)) fl = true
        /\ forallb (fun l => negb (prediction_line l)) fl = true
        /\ filter variant_header fl = [])
    /\ (variant_header last = false
        /\ node_failure_line last = false
        /\ prediction_line last = false).
Proof.
  intros Hread Hloads.
  rewrite (do_POST_read req b Hread).
  assert (Hnone : forall reason,
            (Py.eq_str reason PREDICTED_HIGH_FLEET_CPU_LOAD = true ->
             forallb (fun l => negb (node_failure_line l)) [] = true)
            /\ (Py.eq_str reason PREDICTED_HIGH_FLEET_CPU_LOAD = false ->
                forallb (fun l => negb (prediction_line l)) [] = true)
            /\ List.length (filter variant_header (@nil line)) <= 1).
  { intros reason. cbn. repeat split. lia. }
  assert (Hnil : forallb (fun l => negb (node_failure_line l)) [] = true
                 /\ forallb (fun l => negb (prediction_line l)) [] = true
                 /\ filter variant_header (@nil line) = [])
    by (repeat split).
  body_cases b.
  - exfalso. eapply object_decodes; eassumption.
  - rewrite (same_object b d d' Hloads Hobj) in *.
    rewrite (handle_fault b _ _ Erun). cbn [fst].
    exists hl, [], [], (error_line e).
    split; [rewrite audit_prints; reflexivity|].
    split; [eapply head_neutral; eassumption|].
    split; [apply Hnone|]. split; [exact Hnil|]. repeat split.
  - rewrite (same_object b d d' Hloads Hobj) in *.
    rewrite (handle_fault b _ _ Erun). cbn [fst].
    exists (head (Py.dict_get d "reason" unknown)
                 (Py.dict_get d "timestamp" unknown)), vl, [],
           (error_line e).
    split; [rewrite audit_prints; cbn [audit flat_map app];
            now rewrite <- app_assoc|].
    split; [repeat split|].
    split; [eapply variant_run_exclusive; eassumption|].
    split; [exact Hnil|]. repeat split.
  - rewrite (same_object b d d' Hloads Hobj) in *.
    rewrite (handle_fault b _ _ Erun). cbn [fst].
    exists (head (Py.dict_get d "reason" unknown)
                 (Py.dict_get d "timestamp" unknown)), vl, fl,
           (error_line e).
    split; [rewrite audit_prints; cbn [audit flat_map app];
            now rewrite <- !app_assoc|].
    split; [repeat split|].
    split; [eapply variant_run_exclusive; eassumption|].
    split; [eapply fleet_run_neutral; eassumption|]. repeat split.
  - rewrite (same_object b d d' Hloads Hobj) in *.
    rewrite (handle_ok b _ Erun). cbn [fst].
    exists (head (Py.dict_get d "reason" unknown)
                 (Py.dict_get d "timestamp" unknown)), vl, fl,
           success_line.
    split; [rewrite audit_prints; cbn [audit flat_map app];
            now rewrite app_nil_r|].
    split; [repeat split|].
    split; [eapply variant_run_exclusive; eassumption|].
    split; [eapply fleet_run_neutral; eassumption|]. repeat split.
Qed.

(** C6.  When the reason is [PREDICTED_HIGH_FLEET_CPU_LOAD], no line of the
    node-failure block is in the audit record, and a request whose object
    differs only in [failed_node_id] and [failed_node_ip] runs identically;
    when the reason is [UNEXPECTED_NODE_FAILURE], no line of the prediction
    block is in the record, and a request whose object differs only in
    [prediction_info] runs identically; and the audit record of any request
    holds at most one variant block header. *)
Theorem variant_exclusivity req :
  (forall b d,
     read_body req = Ok b ->
     loads b = Ok (JObject d) ->
     (Py.dict_get d "reason" unknown = JString PREDICTED_HIGH_FLEET_CPU_LOAD ->
      forallb (fun l => negb (node_failure_line l))
              (audit (fst (do_POST req))) = true
      /\ forall req' b' d',
           read_body req' = Ok b' ->
           loads b' = Ok (JObject d') ->
           (forall k, k <> "failed_node_id" -> k <> "failed_node_ip" ->
                      agree k d' d) ->
           do_POST req' = do_POST req)
     /\ (Py.dict_get d "reason" unknown = JString UNEXPECTED_NODE_FAILURE ->
         forallb (fun l => negb (prediction_line l))
                 (audit (fst (do_POST req))) = true
         /\ forall req' b' d',
              read_body req' = Ok b' ->
              loads b' = Ok (JObject d') ->
              (forall k, k <> "prediction_info" -> agree k d' d) ->
              do_POST req' = do_POST req))
  /\ List.length (filter variant_header (audit (fst (do_POST req)))) <= 1.
Proof.
  split.
  - intros b d Hread Hloads.
    destruct (audit_parts req b d Hread Hloads)
      as (hl & vl & fl & last & Ha & (H1 & H2 & _) & (V1 & V2 & _)
          & (F1 & F2 & _) & (_ & L2 & L3)).
    split; intros Hreason; rewrite Hreason in *.
    + split.
      * rewrite Ha, !forallb_app. cbn [forallb].
        rewrite H1, V1, F1, L2 by reflexivity. reflexivity.
      * intros req' b' d' Hread' Hloads' Hagree.
        rewrite (do_POST_read req' b' Hread'), (do_POST_read req b Hread).
        apply (handle_agree b' b d' d Hloads' Hloads);
          try (apply Hagree; discriminate).
        rewrite Hreason. unfold variant_block.
        change (Py.eq_str (JString PREDICTED_HIGH_FLEET_CPU_LOAD)
                          PREDICTED_HIGH_FLEET_CPU_LOAD) with true.
        cbv iota. apply prediction_block_agree. apply Hagree; discriminate.
    + split.
      * rewrite Ha, !forallb_app. cbn [forallb].
        rewrite H2, V2, F2, L3 by reflexivity. reflexivity.
      * intros req' b' d' Hread' Hloads' Hagree.
        rewrite (do_POST_read req' b' Hread'), (do_POST_read req b Hread).
        apply (handle_agree b' b d' d Hloads' Hloads);
          try (apply Hagree; discriminate).
        rewrite Hreason. unfold variant_block.
        change (Py.eq_str (JString UNEXPECTED_NODE_FAILURE)
                          PREDICTED_HIGH_FLEET_CPU_LOAD) with false.
        change (Py.eq_str (JString UNEXPECTED_NODE_FAILURE)
                          UNEXPECTED_NODE_FAILURE) with true.
        cbv iota.
        apply node_failure_block_agree; apply Hagree; discriminate.
  - assert (Hread : exists r, read_body req = r) by eauto.
    destruct Hread as [[b|e] Hread].
    2:{ rewrite (do_POST_unread req e Hread). cbn. lia. }
    destruct (decode_cases b) as [[d Hloads]|[e Hdec]].
    + destruct (audit_parts req b d Hread Hloads)
        as (hl & vl & fl & last & Ha & (_ & _ & H3) & (_ & _ & V3)
            & (_ & _ & F3) & (L1 & _ & _)).
      rewrite Ha, !filter_length_app. cbn [filter].
      rewrite H3, F3, L1. cbn [List.length]. lia.
    + rewrite (do_POST_read req b Hread).
      unfold handle, try_body. rewrite Hdec. cbn. lia.
Qed.

Lemma variant_exclusivity_witness :
  forallb (fun l => negb (node_failure_line l))
          (audit (fst (do_POST (post scenario_B)))) = true
  /\ do_POST (post scenario_B_annotated) = do_POST (post scenario_B)
  /\ forallb (fun l => negb (prediction_line l))
             (audit (fst (do_POST (post scenario_A)))) = true
  /\ do_POST (post scenario_A_annotated) = do_POST (post scenario_A)
  /\ List.length (filter variant_header
                         (audit (fst (do_POST (post scenario_A))))) <= 1.
Proof.
  destruct (variant_exclusivity (post scenario_B)) as [HB _].
  destruct (variant_exclusivity (post scenario_A)) as [HA HA1].
  specialize (HB (list_byte_of_string scenario_B)
                 [("reason", JString "PREDICTED_HIGH_FLEET_CPU_LOAD");
                  ("prediction_info",
                   JObject
                     [("predicted_cpu_usage", JFloat (FDec false 925 (-1)));
                      ("confidence", JFloat (FDec false 87 (-2)))])]
                 ltac:(vm_compute; reflexivity)
                 ltac:(vm_compute; reflexivity)).
  specialize (HA (list_byte_of_string scenario_A)
                 [("reason", JString "UNEXPECTED_NODE_FAILURE");
                  ("timestamp", JString "t1");
                  ("failed_node_id", JString "n-42");
                  ("failed_node_ip", JString "10.0.0.5")]
                 ltac:(vm_compute; reflexivity)
                 ltac:(vm_compute; reflexivity)).
  destruct HB as [HB _]. destruct HA as [_ HA].
  destruct (HB ltac:(vm_compute; reflexivity)) as [HB1 HB2].
  destruct (HA ltac:(vm_compute; reflexivity)) as [HA2 HA3].
  split; [exact HB1|]. split; [|split; [exact HA2|split; [|exact HA1]]].
  - eapply HB2; try (vm_compute; reflexivity).
    intros k H1 H2. unfold agree. cbn [Py.dict_lookup].
    destruct (String.eqb_spec "reason" k); [reflexivity|].
    destruct (String.eqb_spec "failed_node_id" k); [congruence|].
    reflexivity.
  - eapply HA3; try (vm_compute; reflexivity).
    intros k H1. unfold agree. cbn [Py.dict_lookup].
    repeat match goal with
    | |- context [String.eqb ?a k] =>
        destruct (String.eqb_spec a k); [try reflexivity; congruence|]
    end.
    reflexivity.
Defined.

(** C7.  The audit record of a request answered with status 200 is, in this
    order: the banner, the reason line, the timestamp line, the variant
    block (none, the prediction block or the node-failure block), the fleet
    block (none or the fleet lines), and the success line. *)
Theorem audit_order req :
  In (SendResponse 200) (fst (do_POST req)) ->
  exists reason timestamp variant fleet,
    audit (fst (do_POST req)) =
      [banner; reason_line reason; timestamp_line timestamp]
      ++ variant ++ fleet ++ [success_line]
    /\ (variant = [] \/ (exists info, variant = prediction_lines info)
        \/ (exists id ip, variant = node_failure_lines id ip))
    /\ (fleet = [] \/ (exists metrics, fleet = fleet_lines metrics)).
Proof.
  destruct (read_body req) as [b|e] eqn:Hread.
  2:{ rewrite (do_POST_unread req e Hread). intros []. }
  rewrite (do_POST_read req b Hread).
  body_cases b.
  - rewrite (handle_fault b _ _ Erun). cbn [fst]. intros H.
    apply (refused_status []) in H. discriminate.
  - rewrite (handle_fault b _ _ Erun). cbn [fst]. intros H.
    apply refused_status in H. discriminate.
  - rewrite (handle_fault b _ _ Erun). cbn [fst]. intros H.
    apply refused_status in H. discriminate.
  - rewrite (handle_fault b _ _ Erun). cbn [fst]. intros H.
    apply refused_status in H. discriminate.
  - rewrite (handle_ok b _ Erun). cbn [fst]. intros _.
    exists (Py.dict_get d' "reason" unknown),
           (Py.dict_get d' "timestamp" unknown), vl, fl.
    split; [|split].
    + rewrite audit_prints. cbn [audit flat_map]. now rewrite app_nil_r.
    + eapply variant_run_shape; [eassumption|reflexivity].
    + eapply fleet_run_shape; [eassumption|reflexivity].
Qed.

Lemma audit_order_witness :
  exists reason timestamp variant fleet,
    audit (fst (do_POST (post node_failure_with_fleet))) =
      [banner; reason_line reason; timestamp_line timestamp]
      ++ variant ++ fleet ++ [success_line]
    /\ (variant = [] \/ (exists info, variant = prediction_lines info)
        \/ (exists id ip, variant = node_failure_lines id ip))
    /\ (fleet = [] \/ (exists metrics, fleet = fleet_lines metrics)).
Proof.
  apply (audit_order (post node_failure_with_fleet)).
  vm_compute. tauto.
Defined.

(** ** The simulated delay *)

(** C8.  A run answered with status 200 is: printed lines only, then one
    delay of one second, then the response, whatever the reason; a run
    answered with status 400 has no delay, and a body that fails to decode
    is such a run. *)
Theorem delay_placement req :
  (In (SendResponse 200) (fst (do_POST req)) ->
   exists lines,
     fst (do_POST req) = map Print lines ++ [Sleep 1] ++ ok_response)
  /\ (In (SendResponse 400) (fst (do_POST req)) ->
      delays (fst (do_POST req)) = [])
  /\ (forall b e, read_body req = Ok b -> decode b = Raise e ->
      wire (fst (do_POST req)) = bad_request
      /\ delays (fst (do_POST req)) = []).
Proof.
  destruct (read_body req) as [b|e] eqn:Hread.
  2:{ rewrite (do_POST_unread req e Hread).
      split; [|split]; [intros []|intros []|discriminate]. }
  rewrite (do_POST_read req b Hread).
  assert (Hfault : forall ls e,
            try_body b = (map Print ls, Raise e) ->
            (In (SendResponse 200) (fst (handle b)) ->
             exists lines,
               fst (handle b) = map Print lines ++ [Sleep 1] ++ ok_response)
            /\ (In (SendResponse 400) (fst (handle b)) ->
                delays (fst (handle b)) = [])
            /\ (forall b0 e0, Ok b = Ok b0 -> decode b0 = Raise e0 ->
                wire (fst (handle b)) = bad_request
                /\ delays (fst (handle b)) = [])).
  { intros ls e Erun. rewrite (handle_fault b _ _ Erun). cbn [fst].
    split; [|split].
    - intros H. apply refused_status in H. discriminate.
    - intros _. now rewrite delays_prints.
    - intros b0 e0 _ _. now rewrite wire_prints, delays_prints. }
  body_cases b.
  - apply (Hfault [] e Erun).
  - eapply Hfault, Erun.
  - eapply Hfault, Erun.
  - eapply Hfault, Erun.
  - rewrite (handle_ok b _ Erun). cbn [fst]. split; [|split].
    + intros _. eexists. reflexivity.
    + intros H. apply sent_status in H.
      destruct H as [H|[H|[H|[H|[H|[]]]]]]; discriminate.
    + intros b0 e0 Hb Hdec. exfalso. inversion Hb; subst.
      eapply object_decodes; eassumption.
Qed.

Lemma delay_placement_witness :
  (exists lines,
     fst (do_POST (post scenario_E)) =
     map Print lines ++ [Sleep 1] ++ ok_response)
  /\ delays (fst (do_POST (post scenario_D))) = []
  /\ wire (fst (do_POST (post scenario_D))) = bad_request.
Proof.
  destruct (delay_placement (post scenario_E)) as [H200 _].
  destruct (delay_placement (post scenario_D)) as [_ [H400 Hdec]].
  split; [|split].
  - apply H200. vm_compute. tauto.
  - apply H400. vm_compute. tauto.
  - apply (Hdec (list_byte_of_string scenario_D) JSONDecodeError);
      vm_compute; reflexivity.
Defined.

(** ** Unrecognized fields *)

(** C10.  Two requests whose bodies decode to JSON objects that agree on
    [reason], [timestamp], [prediction_info], [failed_node_id],
    [failed_node_ip] and [fleet_metrics] run identically: the same events in
    the same order (so the same status, body and audit record) and the same
    outcome. *)
Theorem unrecognized_fields_ignored req1 req2 b1 b2 d1 d2 :
  read_body req1 = Ok b1 ->
  read_body req2 = Ok b2 ->
  loads b1 = Ok (JObject d1) ->
  loads b2 = Ok (JObject d2) ->
  (forall k, In k recognized -> agree k d1 d2) ->
  do_POST req1 = do_POST req2.
Proof.
  intros Hr1 Hr2 Hl1 Hl2 Hagree.
  rewrite (do_POST_read req1 b1 Hr1), (do_POST_read req2 b2 Hr2).
  assert (A : forall k, In k recognized -> agree k d1 d2) by exact Hagree.
  apply (handle_agree b1 b2 d1 d2 Hl1 Hl2);
    try (apply A; cbn; tauto).
  unfold variant_block.
  destruct (Py.eq_str _ PREDICTED_HIGH_FLEET_CPU_LOAD).
  - apply prediction_block_agree, A; cbn; tauto.
  - destruct (Py.eq_str _ UNEXPECTED_NODE_FAILURE); [|reflexivity].
    apply node_failure_block_agree; apply A; cbn; tauto.
Qed.

Lemma unrecognized_fields_ignored_witness :
  do_POST (post scenario_E) = do_POST (post scenario_E_annotated).
Proof.
  eapply unrecognized_fields_ignored;
    try (vm_compute; reflexivity).
  intros k Hk. unfold agree.
  repeat (destruct Hk as [<-|Hk]; [vm_compute; reflexivity|]).
  destruct Hk.
Defined.

(* ================================================================== *)
(** * Further properties of do_POST *)
(* ================================================================== *)

Lemma or_unknown_get d k : or_unknown d k = Py.dict_get d k unknown.
Proof. reflexivity. Qed.

Lemma variant_run_open d reason vl e :
  variant_run d reason vl e -> forallb (fun l => negb (closing_line l)) vl = true.
Proof.
  intros H. destruct H as [info vl e E1 E2 P| |vl e E1 E2 P|];
    try reflexivity; (eapply printed_forallb; [|exact P]); reflexivity.
Qed.

Lemma fleet_run_open d fl e :
  fleet_run d fl e -> forallb (fun l => negb (closing_line l)) fl = true.
Proof.
  intros H. destruct H as [|metrics fl e E Hne P|];
    try reflexivity; (eapply printed_forallb; [|exact P]); reflexivity.
Qed.

Lemma head_open r t hl e :
  printed (head r t) = (hl, e) ->
  forallb (fun l => negb (closing_line l)) hl = true.
Proof. intros P. eapply printed_forallb; [|exact P]. reflexivity. Qed.

(** The head is written from its first line on, and the banner always is. *)
Lemma head_fault_banner r t hl e :
  printed (head r t) = (hl, Some e) -> exists rest, hl = banner :: rest.
Proof.
  unfold head.
  change (printed [banner; reason_line r; timestamp_line t])
    with (let (written, e0) := printed [reason_line r; timestamp_line t] in
          (banner :: written, e0)).
  destruct (printed [reason_line r; timestamp_line t]) as [w e'].
  intros H. inversion H. eauto.
Qed.

(** ** The audit record, line by line *)

(** Whatever happens later, the record of a body that decodes to an object
    starts with the banner; when the reason and the timestamp can be
    written, the reason line and the timestamp line follow: a field that
    is there is shown as it is (a null also), and only one that is not
    there is shown as ["unknown"]. *)
Theorem head_always_logged req b d :
  read_body req = Ok b ->
  loads b = Ok (JObject d) ->
  (exists rest, audit (fst (do_POST req)) = banner :: rest)
  /\ (loggable (or_unknown d "reason") = true ->
      loggable (or_unknown d "timestamp") = true ->
      exists rest,
        audit (fst (do_POST req)) =
        [banner; reason_line (or_unknown d "reason");
         timestamp_line (or_unknown d "timestamp")] ++ rest).
Proof.
  intros Hread Hloads.
  rewrite (do_POST_read req b Hread), !or_unknown_get.
  body_cases b.
  - exfalso. eapply object_decodes; eassumption.
  - rewrite (same_object b d d' Hloads Hobj) in *.
    rewrite (handle_fault b _ _ Erun). cbn [fst].
    rewrite audit_prints. split.
    + destruct (head_fault_banner _ _ _ _ Hhead) as [rest ->].
      eexists. cbn [app]. reflexivity.
    + intros Hr Ht. exfalso.
      apply head_fault_unloggable in Hhead.
      rewrite head_loggable_spec, Hr, Ht in Hhead. discriminate.
  - rewrite (same_object b d d' Hloads Hobj) in *.
    rewrite (handle_fault b _ _ Erun). cbn [fst].
    rewrite audit_prints.
    split; [|intros _ _]; eexists; unfold head; cbn [app]; reflexivity.
  - rewrite (same_object b d d' Hloads Hobj) in *.
    rewrite (handle_fault b _ _ Erun). cbn [fst].
    rewrite audit_prints.
    split; [|intros _ _]; eexists; unfold head; cbn [app]; reflexivity.
  - rewrite (same_object b d d' Hloads Hobj) in *.
    rewrite (handle_ok b _ Erun). cbn [fst].
    rewrite audit_prints.
    split; [|intros _ _]; eexists; unfold head; cbn [app]; reflexivity.
Qed.

Lemma head_always_logged_witness :
  (exists rest, audit (fst (do_POST (post null_reason))) = banner :: rest)
  /\ exists rest,
       audit (fst (do_POST (post null_reason))) =
       [banner; reason_line JNull; timestamp_line (JInt 7)] ++ rest.
Proof.
  destruct (head_always_logged (post null_reason)
              (list_byte_of_string null_reason)
              [("reason", JNull); ("timestamp", JInt 7)]
              ltac:(vm_compute; reflexivity) ltac:(vm_compute; reflexivity))
    as [H1 H2].
  split; [exact H1|].
  apply H2; vm_compute; reflexivity.
Defined.

(** When the reason is [UNEXPECTED_NODE_FAILURE] and the timestamp, the
    node's id and its address can be written, the record continues with
    the node-failure block, in which the id and the address are shown by
    the field's value when the object has it and by ["unknown"] when it has
    not. *)
Theorem node_failure_fields_logged req b d :
  read_body req = Ok b ->
  loads b = Ok (JObject d) ->
  Py.dict_get d "reason" unknown = JString UNEXPECTED_NODE_FAILURE ->
  loggable (or_unknown d "timestamp") = true ->
  loggable (or_unknown d "failed_node_id") = true ->
  loggable (or_unknown d "failed_node_ip") = true ->
  exists rest,
    audit (fst (do_POST req)) =
      [banner;
       reason_line (JString UNEXPECTED_NODE_FAILURE);
       timestamp_line (or_unknown d "timestamp");
       node_failure_header;
       [Lit "      Failed Node ID: "; Val (or_unknown d "failed_node_id")];
       [Lit "      Failed Node IP: "; Val (or_unknown d "failed_node_ip")];
       [Lit "   🔧 Provisioning replacement node..."]]
      ++ rest.
Proof.
  intros Hread Hloads Hreason Hts Hid Hip.
  rewrite (do_POST_read req b Hread).
  rewrite or_unknown_get in Hts, Hid, Hip. rewrite !or_unknown_get.
  assert (Hhd : head_loggable d = true).
  { rewrite head_loggable_spec, Hreason, Hts. reflexivity. }
  assert (Hnl : lines_loggable
                  (node_failure_lines (Py.dict_get d "failed_node_id" unknown)
                                      (Py.dict_get d "failed_node_ip" unknown))
                = true).
  { unfold lines_loggable, node_failure_lines, node_failure_header.
    cbn [forallb printable andb]. rewrite Hid, Hip. reflexivity. }
  assert (Hvl : forall vl e,
             variant_run d (Py.dict_get d "reason" unknown) vl e ->
             vl = node_failure_lines (Py.dict_get d "failed_node_id" unknown)
                                     (Py.dict_get d "failed_node_ip" unknown)
             /\ e = None).
  { intros vl e H. rewrite Hreason in H.
    inversion H as [info' vl' e' E1 E2 P|v E1 E2 Hm|vl' e' E1 E2 P|E1 E2];
      subst; try discriminate.
    rewrite (printed_loggable _ Hnl) in P. inversion P. now split. }
  body_cases b.
  - exfalso. eapply object_decodes; eassumption.
  - rewrite (same_object b d d' Hloads Hobj) in *.
    rewrite (head_fault_unloggable d hl e Hhead) in Hhd. discriminate.
  - rewrite (same_object b d d' Hloads Hobj) in *.
    apply Hvl in Hvar. destruct Hvar as [_ ?]. discriminate.
  - rewrite (same_object b d d' Hloads Hobj) in *.
    apply Hvl in Hvar. destruct Hvar as [-> _].
    rewrite (handle_fault b _ _ Erun). cbn [fst].
    rewrite audit_prints. rewrite Hreason.
    exists (fl ++ [error_line e]). cbn [audit flat_map app].
    unfold head, node_failure_lines. cbn [app]. reflexivity.
  - rewrite (same_object b d d' Hloads Hobj) in *.
    apply Hvl in Hvar. destruct Hvar as [-> _].
    rewrite (handle_ok b _ Erun). cbn [fst].
    rewrite audit_prints. rewrite Hreason.
    exists (fl ++ [success_line]). cbn [audit flat_map app].
    unfold head, node_failure_lines. cbn [app]. now rewrite app_nil_r.
Qed.

Lemma node_failure_fields_logged_witness :
  exists rest,
    audit (fst (do_POST (post node_failure_with_fleet))) =
      [banner;
       reason_line (JString UNEXPECTED_NODE_FAILURE);
       timestamp_line (JString "unknown");
       node_failure_header;
       [Lit "      Failed Node ID: "; Val (JString "unknown")];
       [Lit "      Failed Node IP: "; Val (JString "unknown")];
       [Lit "   🔧 Provisioning replacement node..."]]
      ++ rest.
Proof.
  apply (node_failure_fields_logged (post node_failure_with_fleet)
           (list_byte_of_string node_failure_with_fleet)
           [("reason", JString "UNEXPECTED_NODE_FAILURE");
            ("fleet_metrics", JObject [("active_nodes", JInt 3)])]);
    vm_compute; reflexivity.
Defined.

(** When the reason is neither of the two constants (a string other than
    them, or no string at all), the record has no variant block; the
    request is refused when [fleet_metrics] is a true value that is not a
    dict, and accepted when it is a dict or a false value and the reason,
    the timestamp and the fleet metrics can be written; and the run is the
    same for every object with this reason, timestamp and fleet metrics: a
    [prediction_info] of any type is harmless here. *)
Theorem unclassified_reason_has_no_variant req b d :
  read_body req = Ok b ->
  loads b = Ok (JObject d) ->
  Py.eq_str (Py.dict_get d "reason" unknown) PREDICTED_HIGH_FLEET_CPU_LOAD
    = false ->
  Py.eq_str (Py.dict_get d "reason" unknown) UNEXPECTED_NODE_FAILURE
    = false ->
  filter variant_header (audit (fst (do_POST req))) = []
  /\ (fleet_well_shaped d = false ->
      wire (fst (do_POST req)) = bad_request)
  /\ (fleet_well_shaped d = true ->
      head_loggable d = true ->
      fleet_loggable d = true ->
      wire (fst (do_POST req)) = ok_response)
  /\ forall req' b' d',
       read_body req' = Ok b' ->
       loads b' = Ok (JObject d') ->
       agree "reason" d' d ->
       agree "timestamp" d' d ->
       agree "fleet_metrics" d' d ->
       do_POST req' = do_POST req.
Proof.
  intros Hread Hloads H1 H2.
  assert (Hvl : forall vl e,
             variant_run d (Py.dict_get d "reason" unknown) vl e ->
             vl = [] /\ e = None).
  { intros vl e H.
    inversion H as [info' vl' e' E1 E2 P|v E1 E2 Hm|vl' e' E1 E2 P|E1 E2];
      subst; try congruence. now split. }
  assert (Hacc : accepted d =
                 fleet_well_shaped d && head_loggable d && fleet_loggable d).
  { unfold accepted, well_shaped, values_loggable, prediction_well_shaped,
      variant_loggable. rewrite H1, H2. cbn [negb orb andb].
    destruct (fleet_well_shaped d), (head_loggable d); reflexivity. }
  split; [|split; [|split]].
  - rewrite (do_POST_read req b Hread).
    body_cases b.
    + exfalso. eapply object_decodes; eassumption.
    + rewrite (handle_fault b _ _ Erun). cbn [fst].
      rewrite audit_prints. cbn [audit flat_map app].
      rewrite filter_app.
      destruct (head_neutral _ _ _ _ Hhead) as (_ & _ & ->). reflexivity.
    + rewrite (same_object b d d' Hloads Hobj) in *.
      apply Hvl in Hvar. destruct Hvar as [_ ?]. discriminate.
    + rewrite (same_object b d d' Hloads Hobj) in *.
      apply Hvl in Hvar. destruct Hvar as [-> _].
      rewrite (handle_fault b _ _ Erun). cbn [fst].
      rewrite audit_prints. cbn [audit flat_map app].
      rewrite !filter_app.
      destruct (fleet_run_neutral _ _ _ Hfleet) as (_ & _ & ->).
      reflexivity.
    + rewrite (same_object b d d' Hloads Hobj) in *.
      apply Hvl in Hvar. destruct Hvar as [-> _].
      rewrite (handle_ok b _ Erun). cbn [fst].
      rewrite audit_prints. cbn [audit flat_map app].
      rewrite !filter_app.
      destruct (fleet_run_neutral _ _ _ Hfleet) as (_ & _ & ->).
      reflexivity.
  - intros Hf. rewrite (wire_by_shape req b d Hread Hloads), Hacc, Hf.
    reflexivity.
  - intros Hf Hh Hl.
    rewrite (wire_by_shape req b d Hread Hloads), Hacc, Hf, Hh, Hl.
    reflexivity.
  - intros req' b' d' Hread' Hloads' Ar At Af.
    rewrite (do_POST_read req' b' Hread'), (do_POST_read req b Hread).
    apply (handle_agree b' b d' d Hloads' Hloads Ar At Af).
    unfold variant_block. now rewrite H1, H2.
Qed.

Lemma unclassified_reason_has_no_variant_witness :
  filter variant_header (audit (fst (do_POST (post scenario_E)))) = []
  /\ wire (fst (do_POST (post scenario_E))) = ok_response
  /\ do_POST (post scenario_E_noisy) = do_POST (post scenario_E).
Proof.
  destruct (unclassified_reason_has_no_variant (post scenario_E)
              (list_byte_of_string scenario_E)
              [("reason", JString "X");
               ("fleet_metrics", JObject [("active_nodes", JInt 7)])]
              ltac:(vm_compute; reflexivity) ltac:(vm_compute; reflexivity)
              ltac:(vm_compute; reflexivity) ltac:(vm_compute; reflexivity))
    as (H1 & _ & H2 & H3).
  split; [exact H1|]. split; [apply H2; vm_compute; reflexivity|].
  apply (H3 (post scenario_E_noisy) (list_byte_of_string scenario_E_noisy)
            [("reason", JString "X"); ("prediction_info", JString "x");
             ("failed_node_id", JInt 3);
             ("fleet_metrics", JObject [("active_nodes", JInt 7)])]);
    vm_compute; reflexivity.
Defined.

(** When [fleet_metrics] is a false value (absent, null, false, zero, empty)
    and the variant block ran (its dict is there, and the head and the
    block can be written), the fleet block is skipped without a fault: the
    run is the head, the variant block, the success line, the delay and the
    200 response. *)
Theorem false_fleet_metrics_skipped req b d :
  read_body req = Ok b ->
  loads b = Ok (JObject d) ->
  Py.truthy (Py.dict_get d "fleet_metrics" empty_dict) = false ->
  prediction_well_shaped d = true ->
  head_loggable d = true ->
  variant_loggable d = true ->
  exists variant,
    variant_run d (Py.dict_get d "reason" unknown) variant None
    /\ do_POST req =
       (map Print (head (Py.dict_get d "reason" unknown)
                        (Py.dict_get d "timestamp" unknown)
                   ++ variant ++ [success_line])
        ++ [Sleep 1] ++ ok_response, Ok tt).
Proof.
  intros Hread Hloads Hfalse Hp Hh Hv.
  assert (Hacc : accepted d = true).
  { unfold accepted, well_shaped, values_loggable, fleet_well_shaped,
      fleet_loggable.
    rewrite Hp, Hh, Hv, Hfalse. cbn [negb orb andb].
    destruct (Py.dict_get d "fleet_metrics" empty_dict) as [| | | | | |m];
      try reflexivity.
    destruct m; [reflexivity|discriminate]. }
  destruct (accepted_run b d Hloads Hacc) as (vl & fl & Hvar & Hfleet & Erun).
  exists vl. split; [exact Hvar|].
  rewrite (do_POST_read req b Hread), (handle_ok b _ Erun).
  inversion Hfleet as [T|metrics fl' e' E Hne P|]; subst; [reflexivity|].
  exfalso. rewrite E in Hfalse. destruct metrics; [congruence|discriminate].
Qed.

Lemma false_fleet_metrics_skipped_witness :
  exists variant,
    variant_run [("reason", JString "UNEXPECTED_NODE_FAILURE");
                 ("fleet_metrics", JInt 0)]
                (JString "UNEXPECTED_NODE_FAILURE") variant None
    /\ do_POST (post node_failure_zero_fleet) =
       (map Print (head (JString "UNEXPECTED_NODE_FAILURE")
                        (JString "unknown")
                   ++ variant ++ [success_line])
        ++ [Sleep 1] ++ ok_response, Ok tt).
Proof.
  apply (false_fleet_metrics_skipped (post node_failure_zero_fleet)
           (list_byte_of_string node_failure_zero_fleet)
           [("reason", JString "UNEXPECTED_NODE_FAILURE");
            ("fleet_metrics", JInt 0)]);
    vm_compute; reflexivity.
Defined.

(** ** Faults inside the [try] *)

(** When the reason selects the prediction block, [prediction_info] is not
    a dict and the timestamp can be written, the block's header is printed
    before the fault: the run is the head, that header, the error line
    naming the value that has no [get], and the 400 response. *)
Theorem prediction_fault_run req b d v :
  read_body req = Ok b ->
  loads b = Ok (JObject d) ->
  Py.dict_get d "reason" unknown = JString PREDICTED_HIGH_FLEET_CPU_LOAD ->
  Py.dict_get d "prediction_info" empty_dict = v ->
  mapping v = false ->
  loggable (Py.dict_get d "timestamp" unknown) = true ->
  do_POST req =
  (map Print
     [banner;
      reason_line (JString PREDICTED_HIGH_FLEET_CPU_LOAD);
      timestamp_line (Py.dict_get d "timestamp" unknown);
      prediction_header;
      error_line (AttributeError v "get")]
   ++ bad_request, Ok tt).
Proof.
  intros Hread Hloads Hreason Hv Hm Hts.
  rewrite (do_POST_read req b Hread).
  assert (Hhd : head_loggable d = true).
  { rewrite head_loggable_spec, Hreason, Hts. reflexivity. }
  assert (Hvl : forall vl e,
             variant_run d (Py.dict_get d "reason" unknown) vl e ->
             vl = [prediction_header] /\ e = no_get v).
  { intros vl e H. rewrite Hreason in H.
    inversion H as [info' vl' e' E1 E2 P|v' E1 E2 Hm'|vl' e' E1 E2 P|E1 E2];
      subst; try discriminate.
    - rewrite E2 in Hm. discriminate.
    - now split. }
  body_cases b.
  - exfalso. eapply object_decodes; eassumption.
  - rewrite (same_object b d d' Hloads Hobj) in *.
    rewrite (head_fault_unloggable d hl e Hhead) in Hhd. discriminate.
  - rewrite (same_object b d d' Hloads Hobj) in *.
    apply Hvl in Hvar. destruct Hvar as [-> E]. inversion E; subst.
    rewrite (handle_fault b _ _ Erun). rewrite Hreason. reflexivity.
  - rewrite (same_object b d d' Hloads Hobj) in *.
    apply Hvl in Hvar. destruct Hvar as [_ ?]. discriminate.
  - rewrite (same_object b d d' Hloads Hobj) in *.
    apply Hvl in Hvar. destruct Hvar as [_ ?]. discriminate.
Qed.

Lemma prediction_fault_run_witness :
  do_POST (post prediction_info_is_text) =
  (map Print
     [banner;
      reason_line (JString PREDICTED_HIGH_FLEET_CPU_LOAD);
      timestamp_line (JString "unknown");
      prediction_header;
      error_line (AttributeError (JString "x") "get")]
   ++ bad_request, Ok tt).
Proof.
  apply (prediction_fault_run (post prediction_info_is_text)
           (list_byte_of_string prediction_info_is_text)
           [("reason", JString "PREDICTED_HIGH_FLEET_CPU_LOAD");
            ("prediction_info", JString "x")]);
    vm_compute; reflexivity.
Defined.

(** When [fleet_metrics] is a true value that is not a dict and the variant
    block ran (its dict is there, and the head and the block can be
    written), the run is the head, the variant block, the fleet header, the
    error line naming that value, and the 400 response. *)
Theorem fleet_fault_run req b d v :
  read_body req = Ok b ->
  loads b = Ok (JObject d) ->
  prediction_well_shaped d = true ->
  head_loggable d = true ->
  variant_loggable d = true ->
  Py.dict_get d "fleet_metrics" empty_dict = v ->
  Py.truthy v = true ->
  mapping v = false ->
  exists variant,
    variant_run d (Py.dict_get d "reason" unknown) variant None
    /\ do_POST req =
       (map Print (head (Py.dict_get d "reason" unknown)
                        (Py.dict_get d "timestamp" unknown)
                   ++ variant
                   ++ [fleet_header; error_line (AttributeError v "get")])
        ++ bad_request, Ok tt).
Proof.
  intros Hread Hloads Hp Hh Hvlog Hv Ht Hm.
  rewrite (do_POST_read req b Hread).
  body_cases b.
  - exfalso. eapply object_decodes; eassumption.
  - exfalso. rewrite (same_object b d d' Hloads Hobj) in *.
    rewrite (head_fault_unloggable d hl e Hhead) in Hh. discriminate.
  - exfalso. rewrite (same_object b d d' Hloads Hobj) in *.
    pose proof (variant_fault_refused d vl e Hvar) as F.
    rewrite Hp, Hvlog in F. discriminate.
  - rewrite (same_object b d d' Hloads Hobj) in *.
    exists vl. split; [exact Hvar|].
    rewrite (handle_fault b _ _ Erun).
    inversion Hfleet as [|metrics fl' e' E Hne P|v' E1 E2 Hm']; subst.
    + rewrite E in Hm. discriminate.
    + rewrite !map_app, <- !app_assoc. reflexivity.
  - exfalso. rewrite (same_object b d d' Hloads Hobj) in *.
    inversion Hfleet as [T|metrics fl' e' E Hne P|]; subst.
    + congruence.
    + rewrite E in Hm. discriminate.
Qed.

Lemma fleet_fault_run_witness :
  exists variant,
    variant_run [("fleet_metrics", JInt 5)] unknown variant None
    /\ do_POST (post fleet_metrics_is_number) =
       (map Print (head unknown unknown
                   ++ variant
                   ++ [fleet_header;
                       error_line (AttributeError (JInt 5) "get")])
        ++ bad_request, Ok tt).
Proof.
  apply (fleet_fault_run (post fleet_metrics_is_number)
           (list_byte_of_string fleet_metrics_is_number)
           [("fleet_metrics", JInt 5)] (JInt 5));
    vm_compute; reflexivity.
Defined.

(** ** The answer *)

(** A request whose body was read is answered exactly once and [do_POST]
    returns normally: the calls on the response are those of the 200
    response or those of the 400 response.  They are those of the 200
    response only when the body decodes to a well-shaped object, and
    always when, in addition, what the handler prints from the object can
    be written. *)
Theorem answered_once req b :
  read_body req = Ok b ->
  snd (do_POST req) = Ok tt
  /\ (wire (fst (do_POST req)) = ok_response
      \/ wire (fst (do_POST req)) = bad_request)
  /\ (wire (fst (do_POST req)) = ok_response ->
      exists d, loads b = Ok (JObject d) /\ well_shaped d = true)
  /\ (forall d, loads b = Ok (JObject d) ->
      well_shaped d = true ->
      values_loggable d = true ->
      wire (fst (do_POST req)) = ok_response).
Proof.
  intros Hread. split; [|split; [|split]].
  - rewrite (do_POST_read req b Hread). apply handle_returns.
  - destruct (decode_cases b) as [[d Hloads]|[e Hdec]].
    + rewrite (wire_by_shape req b d Hread Hloads).
      destruct (accepted d); auto.
    + right. rewrite (do_POST_read req b Hread).
      unfold handle, try_body. rewrite Hdec. reflexivity.
  - intros Hw. destruct (decode_cases b) as [[d Hloads]|[e Hdec]].
    + exists d. split; [exact Hloads|].
      rewrite (wire_by_shape req b d Hread Hloads) in Hw.
      unfold accepted in Hw.
      destruct (well_shaped d); [reflexivity|discriminate].
    + exfalso. rewrite (do_POST_read req b Hread) in Hw.
      unfold handle, try_body in Hw. rewrite Hdec in Hw. discriminate.
  - intros d Hloads Hs Hl.
    rewrite (wire_by_shape req b d Hread Hloads).
    unfold accepted. now rewrite Hs, Hl.
Qed.

Lemma answered_once_witness :
  snd (do_POST (post scenario_A)) = Ok tt
  /\ (wire (fst (do_POST (post scenario_A))) = ok_response
      \/ wire (fst (do_POST (post scenario_A))) = bad_request)
  /\ (wire (fst (do_POST (post scenario_A))) = ok_response ->
      exists d, loads (list_byte_of_string scenario_A) = Ok (JObject d)
                /\ well_shaped d = true)
  /\ (forall d, loads (list_byte_of_string scenario_A) = Ok (JObject d) ->
      well_shaped d = true ->
      values_loggable d = true ->
      wire (fst (do_POST (post scenario_A))) = ok_response).
Proof.
  apply (answered_once (post scenario_A) (list_byte_of_string scenario_A)).
  vm_compute. reflexivity.
Defined.

(** The audit record of a request whose body was read ends with exactly one
    closing line, the success line when the answer is 200 and the error line
    when it is 400, and no line before it is a closing line. *)
Theorem audit_closing_line req b :
  read_body req = Ok b ->
  exists lines last,
    audit (fst (do_POST req)) = lines ++ [last]
    /\ forallb (fun l => negb (closing_line l)) lines = true
    /\ ((wire (fst (do_POST req)) = ok_response /\ last = success_line)
        \/ (wire (fst (do_POST req)) = bad_request
            /\ exists e, last = error_line e)).
Proof.
  intros Hread.
  rewrite (do_POST_read req b Hread).
  body_cases b.
  - rewrite (handle_fault b _ _ Erun). cbn [fst].
    exists [], (error_line e). repeat split. right. split; eauto.
  - rewrite (handle_fault b _ _ Erun). cbn [fst].
    rewrite audit_prints, wire_prints.
    exists hl, (error_line e). split; [reflexivity|]. split.
    + eapply head_open; eassumption.
    + right. split; eauto.
  - rewrite (handle_fault b _ _ Erun). cbn [fst].
    rewrite audit_prints, wire_prints.
    eexists _, (error_line e). split; [reflexivity|]. split.
    + rewrite forallb_app. rewrite (variant_run_open _ _ _ _ Hvar).
      reflexivity.
    + right. split; eauto.
  - rewrite (handle_fault b _ _ Erun). cbn [fst].
    rewrite audit_prints, wire_prints.
    eexists _, (error_line e). split; [reflexivity|]. split.
    + rewrite !forallb_app. rewrite (variant_run_open _ _ _ _ Hvar),
        (fleet_run_open _ _ _ Hfleet). reflexivity.
    + right. split; eauto.
  - rewrite (handle_ok b _ Erun). cbn [fst].
    rewrite audit_prints, wire_prints.
    exists (head (Py.dict_get d' "reason" unknown)
                 (Py.dict_get d' "timestamp" unknown) ++ vl ++ fl),
           success_line.
    split; [|split].
    + cbn [audit flat_map]. rewrite app_nil_r, <- !app_assoc. reflexivity.
    + rewrite !forallb_app. rewrite (variant_run_open _ _ _ _ Hvar),
        (fleet_run_open _ _ _ Hfleet). reflexivity.
    + left. split; reflexivity.
Qed.

Lemma audit_closing_line_witness :
  exists lines last,
    audit (fst (do_POST (post scenario_D))) = lines ++ [last]
    /\ forallb (fun l => negb (closing_line l)) lines = true
    /\ ((wire (fst (do_POST (post scenario_D))) = ok_response
         /\ last = success_line)
        \/ (wire (fst (do_POST (post scenario_D))) = bad_request
            /\ exists e, last = error_line e)).
Proof.
  apply (audit_closing_line (post scenario_D)
           (list_byte_of_string scenario_D)).
  vm_compute. reflexivity.
Defined.

(** ** Reading the body *)

Lemma take_firstn l : forall n,
  (0 <= n)%Z -> take n l = firstn (Z.to_nat n) l.
Proof.
  induction l as [|x l IH]; intros n Hn.
  - now rewrite firstn_nil.
  - cbn [take]. destruct (0 <? n)%Z eqn:E.
    + apply Z.ltb_lt in E.
      replace (Z.to_nat n) with (S (Z.to_nat (n - 1))) by lia.
      cbn [firstn]. now rewrite IH by lia.
    + apply Z.ltb_ge in E. replace n with 0%Z by lia. reflexivity.
Qed.



Lemma ws_is_ascii x :
  Py.is_ws (ascii_of_byte x) = true -> (Byte.to_N x <? 128)%N = true.
Proof. destruct x; intros H; try reflexivity; discriminate H. Qed.

Lemma blank_utf8 b : blank b = true -> Py.utf8_ok (map Byte.to_N b) = true.
Proof.
  induction b as [|x b IH]; [reflexivity|].
  cbn [blank forallb map]. intros H.
  apply andb_true_iff in H. destruct H as [Hx Hb].
  cbn [Py.utf8_ok]. rewrite (ws_is_ascii x Hx). now apply IH.
Qed.

Lemma blank_skipped b :
  blank b = true -> Py.skip_ws (string_of_list_byte b) = EmptyString.
Proof.
  induction b as [|x b IH]; [reflexivity|].
  cbn [blank forallb]. intros H.
  apply andb_true_iff in H. destruct H as [Hx Hb].
  unfold string_of_list_byte in *.
  cbn [map string_of_list_ascii Py.skip_ws]. rewrite Hx. now apply IH.
Qed.

Lemma loads_blank b : blank b = true -> loads b = Raise JSONDecodeError.
Proof.
  intros H. unfold loads, Py.bytes_decode.
  rewrite (blank_utf8 b H). cbn [rbind].
  unfold Py.json_loads. rewrite (blank_skipped b H). reflexivity.
Qed.









(** Bytes after the declared length have no effect: two requests that
    declare the same length (zero or more) and send the same bytes up to it
    run identically. *)
Theorem bytes_past_length_ignored req1 req2 n :
  Py.int (headers_get (headers req1) "Content-Length") = Ok n ->
  Py.int (headers_get (headers req2) "Content-Length") = Ok n ->
  (0 <= n)%Z ->
  firstn (Z.to_nat n) (rfile req1) = firstn (Z.to_nat n) (rfile req2) ->
  do_POST req1 = do_POST req2.
Proof.
  intros H1 H2 Hn Hsame.
  unfold do_POST, read_body. rewrite H1, H2. cbn [rbind].
  unfold rfile_read.
  destruct ((n <? - ssize_max - 1)%Z || (ssize_max <? n)%Z); [reflexivity|].
  destruct (n <? -1)%Z; [reflexivity|].
  destruct (n =? -1)%Z eqn:E; [apply Z.eqb_eq in E; lia|].
  destruct (bytes_max <? n)%Z; [reflexivity|].
  now rewrite !take_firstn, Hsame by exact Hn.
Qed.

Lemma bytes_past_length_ignored_witness :
  do_POST exact_request = do_POST overlong_request.
Proof.
  apply (bytes_past_length_ignored exact_request overlong_request 2);
    vm_compute; first [reflexivity | discriminate].
Defined.

(** A body of white space only, the empty body among them, is answered with
    status 400 after the error line of a JSON decoding error. *)
Theorem blank_body_is_refused req b :
  read_body req = Ok b ->
  blank b = true ->
  do_POST req =
  ([Print (error_line JSONDecodeError); SendResponse 400; EndHeaders], Ok tt).
Proof.
  intros Hread Hblank.
  rewrite (do_POST_read req b Hread).
  unfold handle, try_body.
  rewrite (decode_raise b _ (loads_blank b Hblank)). reflexivity.
Qed.

Lemma blank_body_is_refused_witness :
  do_POST (post "") =
  ([Print (error_line JSONDecodeError); SendResponse 400; EndHeaders], Ok tt).
Proof.
  apply (blank_body_is_refused (post "") []); vm_compute; reflexivity.
Defined.



(* ================================================================== *)
(** * Properties of log_message *)
(* ================================================================== *)

Lemma append_empty a : (a ++ "")%string = a.
Proof. induction a as [|c a IH]; cbn; [reflexivity|now rewrite IH]. Qed.

Lemma append_assoc a b c : ((a ++ b) ++ c)%string = (a ++ b ++ c)%string.
Proof. induction a as [|x a IH]; cbn; [reflexivity|now rewrite IH]. Qed.

Lemma append_length a b :
  String.length (a ++ b) = String.length a + String.length b.
Proof. induction a as [|c a IH]; cbn; [reflexivity|now rewrite IH]. Qed.

Lemma zero_padded_length w : forall n, String.length (zero_padded w n) = w.
Proof.
  induction w as [|w IH]; intros n; [reflexivity|].
  cbn [zero_padded]. rewrite append_length, IH. cbn. lia.
Qed.

Lemma compare_append a1 : forall a2 b1 b2,
  String.length a1 = String.length a2 ->
  String.compare (a1 ++ b1) (a2 ++ b2) =
  first_of (String.compare a1 a2) (String.compare b1 b2).
Proof.
  induction a1 as [|c a1 IH]; intros [|c2 a2] b1 b2 H; try discriminate.
  - reflexivity.
  - cbn [String.append String.compare]. cbn in H.
    destruct (Ascii.compare c c2); try reflexivity.
    apply IH. congruence.
Qed.

Lemma digit_compare a b :
  (a < 10)%N -> (b < 10)%N ->
  Ascii.compare (digit_char a) (digit_char b) = (a ?= b)%N.
Proof.
  intros Ha Hb. unfold Ascii.compare, digit_char.
  rewrite !N_ascii_embedding by lia.
  destruct (N.compare_spec a b) as [E|L|L].
  - apply N.compare_eq_iff. lia.
  - apply N.compare_lt_iff. lia.
  - apply N.compare_gt_iff. lia.
Qed.

Lemma compare_by_digits x y :
  (x ?= y)%N =
  first_of (x / 10 ?= y / 10)%N (x mod 10 ?= y mod 10)%N.
Proof.
  pose proof (N.div_mod x 10 ltac:(discriminate)) as Hx.
  pose proof (N.div_mod y 10 ltac:(discriminate)) as Hy.
  pose proof (N.mod_lt x 10 ltac:(discriminate)).
  pose proof (N.mod_lt y 10 ltac:(discriminate)).
  generalize dependent (x / 10)%N. generalize dependent (y / 10)%N.
  generalize dependent (x mod 10)%N. generalize dependent (y mod 10)%N.
  intros ym Hym xm Hxm yq Hy xq Hx.
  destruct (N.compare_spec xq yq) as [E|L|L]; cbn [first_of].
  - destruct (N.compare_spec xm ym) as [E'|L'|L'].
    + apply N.compare_eq_iff. lia.
    + apply N.compare_lt_iff. lia.
    + apply N.compare_gt_iff. lia.
  - apply N.compare_lt_iff. lia.
  - apply N.compare_gt_iff. lia.
Qed.

Lemma zero_padded_compare w : forall x y,
  (x < 10 ^ N.of_nat w)%N -> (y < 10 ^ N.of_nat w)%N ->
  String.compare (zero_padded w x) (zero_padded w y) = (x ?= y)%N.
Proof.
  induction w as [|w IH]; intros x y Hx Hy.
  - cbn in *. symmetry. apply N.compare_eq_iff. lia.
  - cbn [zero_padded].
    rewrite compare_append by now rewrite !zero_padded_length.
    rewrite Nat2N.inj_succ, N.pow_succ_r' in Hx, Hy.
    rewrite IH.
    2,3: apply N.Div0.div_lt_upper_bound; lia.
    cbn [String.compare].
    rewrite digit_compare by (apply N.mod_lt; discriminate).
    rewrite (compare_by_digits x y).
    destruct (x / 10 ?= y / 10)%N; cbn [first_of]; try reflexivity.
    now destruct (x mod 10 ?= y mod 10)%N.
Qed.

Lemma strftime_log_format t : strftime log_format t = Some (stamp_of t).
Proof.
  unfold stamp_of. cbn -[zero_padded String.append].
  cbn [String.append]. now rewrite append_empty.
Qed.

Lemma stamp_length t : String.length (stamp_of t) = 19.
Proof.
  unfold stamp_of. rewrite !append_length, !zero_padded_length. reflexivity.
Qed.

Lemma substring_all b : String.substring 0 (String.length b) b = b.
Proof. induction b as [|c b IH]; cbn; [reflexivity|now rewrite IH]. Qed.

Lemma substring_append a : forall b,
  String.substring (String.length a) (String.length b) (a ++ b) = b.
Proof.
  induction a as [|c a IH]; intros b; cbn [String.length String.append].
  - apply substring_all.
  - cbn [String.substring]. apply IH.
Qed.

Lemma separator_compare c a b :
  String.compare (String c a) (String c b) = String.compare a b.
Proof.
  cbn [String.compare].
  replace (Ascii.compare c c) with Eq; [reflexivity|].
  symmetry. unfold Ascii.compare. apply N.compare_refl.
Qed.

Lemma compare_same s : String.compare s s = Eq.
Proof.
  induction s as [|c s IH]; [reflexivity|].
  cbn [String.compare]. unfold Ascii.compare. now rewrite N.compare_refl.
Qed.

Lemma first_of_eq c1 c2 : first_of c1 c2 = Eq -> c1 = Eq /\ c2 = Eq.
Proof. destruct c1; cbn; intros H; try discriminate; now split. Qed.

(** Plain text can be written, and a timestamp is plain text. *)
Lemma plain_append a b : plain (a ++ b) = plain a && plain b.
Proof.
  unfold plain. induction a as [|c a IH]; [reflexivity|].
  cbn [String.append list_ascii_of_string forallb].
  now rewrite IH, andb_assoc.
Qed.

Lemma plain_zero_padded w : forall n, plain (zero_padded w n) = true.
Proof.
  induction w as [|w IH]; intros n; [reflexivity|].
  cbn [zero_padded]. rewrite plain_append, IH.
  unfold plain, digit_char. cbn [list_ascii_of_string forallb andb].
  pose proof (N.mod_lt n 10 ltac:(discriminate)) as L.
  rewrite N_ascii_embedding by lia.
  rewrite andb_true_r. apply N.ltb_lt. lia.
Qed.

Lemma plain_encodable s : plain s = true -> Py.encodable s = true.
Proof.
  unfold plain, Py.encodable.
  induction (list_ascii_of_string s) as [|c l IH]; [reflexivity|].
  cbn [forallb map Py.utf8_ok]. intros H.
  apply andb_true_iff in H. destruct H as [Hc Hl].
  rewrite Hc. now apply IH.
Qed.

Lemma stamp_encodable t : Py.encodable (stamp_of t) = true.
Proof.
  apply plain_encodable. unfold stamp_of.
  rewrite !plain_append, !plain_zero_padded. reflexivity.
Qed.

(** For a time within the ranges, [log_message] prints one line or, when
    the message cannot be written, raises [UnicodeEncodeError] with
    nothing printed; a message without a lone surrogate is always printed.
    The line is an opening bracket, a timestamp of 19 characters, a closing
    bracket and a space, then the message, which therefore starts at
    offset 22 of the line. *)
Theorem log_line_layout now text :
  in_range now ->
  exists stamp,
    strftime log_format now = Some stamp
    /\ (log_message now (Ok text) =
        ([Print [Lit "["; Val (JString stamp); Lit "] "; Val (JString text)]],
         Ok tt)
        \/ log_message now (Ok text) = ([], Raise UnicodeEncodeError))
    /\ (Py.encodable text = true ->
        log_message now (Ok text) =
        ([Print [Lit "["; Val (JString stamp); Lit "] "; Val (JString text)]],
         Ok tt))
    /\ line_text [Lit "["; Val (JString stamp); Lit "] "; Val (JString text)]
       = Some ("[" ++ stamp ++ "] " ++ text)%string
    /\ String.length stamp = 19
    /\ String.substring 22 (String.length text)
                        ("[" ++ stamp ++ "] " ++ text) = text.
Proof.
  intros _. exists (stamp_of now).
  assert (L : log_message now (Ok text) =
              if Py.encodable text then
                ([Print [Lit "["; Val (JString (stamp_of now)); Lit "] ";
                         Val (JString text)]], Ok tt)
              else ([], Raise UnicodeEncodeError)).
  { unfold log_message. rewrite strftime_log_format.
    unfold lift. rewrite bind_run. unfold print.
    cbn [forallb printable loggable andb].
    rewrite (stamp_encodable now). cbn [andb]. rewrite andb_true_r.
    destruct (Py.encodable text); reflexivity. }
  split; [apply strftime_log_format|].
  split; [|split; [|split; [|split]]].
  - rewrite L. destruct (Py.encodable text); [now left|now right].
  - intros E. now rewrite L, E.
  - cbn. now rewrite append_empty.
  - apply stamp_length.
  - assert (Hl : String.length ("[" ++ stamp_of now ++ "] ") = 22).
    { cbn [String.append String.length].
      now rewrite append_length, stamp_length. }
    rewrite <- Hl.
    replace ("[" ++ stamp_of now ++ "] " ++ text)%string
      with (("[" ++ stamp_of now ++ "] ") ++ text)%string
      by (cbn [String.append]; now rewrite append_assoc).
    apply substring_append.
Qed.

Lemma log_line_layout_witness :
  exists stamp,
    strftime log_format noon = Some stamp
    /\ (log_message noon (Ok "ready") =
        ([Print [Lit "["; Val (JString stamp); Lit "] ";
                 Val (JString "ready")]],
         Ok tt)
        \/ log_message noon (Ok "ready") = ([], Raise UnicodeEncodeError))
    /\ (Py.encodable "ready" = true ->
        log_message noon (Ok "ready") =
        ([Print [Lit "["; Val (JString stamp); Lit "] ";
                 Val (JString "ready")]],
         Ok tt))
    /\ line_text [Lit "["; Val (JString stamp); Lit "] ";
                  Val (JString "ready")]
       = Some ("[" ++ stamp ++ "] " ++ "ready")%string
    /\ String.length stamp = 19
    /\ String.substring 22 (String.length "ready")
                        ("[" ++ stamp ++ "] " ++ "ready") = "ready".
Proof.
  apply (log_line_layout noon "ready").
  unfold in_range. cbn. lia.
Defined.

(** The timestamps of two times within the ranges compare as strings the
    way the times compare to the second, and equal timestamps mean the same
    second. *)
Theorem timestamps_sort_by_time a b sa sb :
  in_range a ->
  in_range b ->
  strftime log_format a = Some sa ->
  strftime log_format b = Some sb ->
  String.compare sa sb = chronological a b
  /\ (sa = sb ->
      year a = year b /\ month a = month b /\ day a = day b
      /\ hour a = hour b /\ minute a = minute b /\ second a = second b).
Proof.
  intros (Ya & Ma & Da & Ha & Mia & Sa) (Yb & Mb & Db & Hb & Mib & Sb) Ea Eb.
  rewrite strftime_log_format in Ea, Eb.
  inversion Ea; inversion Eb; subst sa sb. clear Ea Eb.
  assert (C : String.compare (stamp_of a) (stamp_of b) = chronological a b).
  { unfold stamp_of, chronological.
    assert (P4 : forall x, (x <= 9999)%N -> (x < 10 ^ N.of_nat 4)%N)
      by (intros x Hx; change (10 ^ N.of_nat 4)%N with 10000%N; lia).
    assert (P2 : forall x, (x <= 59)%N -> (x < 10 ^ N.of_nat 2)%N)
      by (intros x Hx; change (10 ^ N.of_nat 2)%N with 100%N; lia).
    rewrite compare_append by (now rewrite !zero_padded_length).
    rewrite zero_padded_compare by (apply P4; lia).
    cbn [String.append]. rewrite separator_compare.
    do 4 (rewrite compare_append by (now rewrite !zero_padded_length);
          rewrite zero_padded_compare by (apply P2; lia);
          cbn [String.append]; rewrite separator_compare).
    rewrite zero_padded_compare by (apply P2; lia).
    reflexivity. }
  split; [exact C|].
  intros E. rewrite E, compare_same in C. symmetry in C.
  unfold chronological in C.
  repeat match type of C with
  | first_of _ _ = Eq =>
      let H := fresh "F" in
      apply first_of_eq in C; destruct C as [H C];
      apply N.compare_eq_iff in H
  end.
  apply N.compare_eq_iff in C. repeat split; assumption.
Qed.

Lemma timestamps_sort_by_time_witness :
  String.compare "2025-03-09 12:00:05" "2025-03-09 19:30:00"
  = chronological noon evening
  /\ ("2025-03-09 12:00:05" = "2025-03-09 19:30:00" ->
      year noon = year evening /\ month noon = month evening
      /\ day noon = day evening /\ hour noon = hour evening
      /\ minute noon = minute evening /\ second noon = second evening).
Proof.
  apply (timestamps_sort_by_time noon evening);
    try (unfold in_range; cbn; lia); vm_compute; reflexivity.
Defined.
